(** * webdavd/server.go: TLS trust, authentication and admission gate

    A shallow embedding of [src/webdavd/server.go].  The Go code talks to a
    number of collaborators that live in other packages ([common],
    [dataprovider], [metrics], [utils], the Go standard library); they are
    gathered in the class [Collaborators] and every theorem holds for all
    of them.  Shared mutable state (the credential cache, the clock, the
    allocator of lock systems) and the sequence of calls made to the
    collaborators are threaded explicitly through the state monad [M]. *)

From Stdlib Require Import ZArith String Ascii List Lia.
From stdpp Require Import base strings gmap list.

Local Open Scope string_scope.

(** ** Data model *)

(** Go [error] values produced or inspected by this file.  The formatted
    errors of [validateUser] keep their arguments instead of the rendered
    text. *)
Inductive error :=
  | err401                                   (* errors.New("Unauthorized") *)
  | ErrInvalidCredentials                    (* dataprovider.ErrInvalidCredentials *)
  | ErrConnectionDenied                      (* common.ErrConnectionDenied *)
  | ErrGenericFailure                        (* common.ErrGenericFailure *)
  | ErrCrtRevoked                            (* common.ErrCrtRevoked *)
  | ErrChainUnverifiable                     (* "TLS connection cannot be verified: unable to get verification chain" *)
  | RecordNotFoundError (msg : string)       (* *dataprovider.RecordNotFoundError *)
  | ExternalError (msg : string)             (* any other error of a collaborator *)
  | ErrInvalidHomeDir (homeDir : string)     (* "cannot login user with invalid home dir: %#v" *)
  | ErrProtocolDenied (username : string)    (* "Protocol DAV is not allowed for user %#v" *)
  | ErrLoginMethodDenied (username : string) (* "Password login method is not allowed for user %#v" *)
  | ErrTooManySessions (activeSessions : Z)  (* "too many open sessions: %v" *)
  | ErrOverlappedFolders                     (* "overlapping mapped folders are allowed only with quota tracking disabled" *)
  | ErrAddrNotAllowed (username remoteAddr : string).
                                             (* "Login for user %#v is not allowed from this address: %v" *)

(** The fields of [dataprovider.User] that server.go reads or writes. *)
Record User := {
  Username : string;
  HomeDir : string;
  UID : Z;
  GID : Z;
  MaxSessions : Z;
  DeniedProtocols : list string;             (* user.Filters.DeniedProtocols *)
  FsProvider : Z                             (* user.FsConfig.Provider *)
}.

(** [var user dataprovider.User]: the zero value. *)
Definition zeroUser : User :=
  {| Username := ""; HomeDir := ""; UID := 0; GID := 0; MaxSessions := 0;
     DeniedProtocols := []; FsProvider := 0 |}.

(** [user.Username = username] *)
Definition set_Username (username : string) (u : User) : User :=
  {| Username := username; HomeDir := HomeDir u; UID := UID u; GID := GID u;
     MaxSessions := MaxSessions u; DeniedProtocols := DeniedProtocols u;
     FsProvider := FsProvider u |}.

(** A [webdav.LockSystem] is a pointer to a freshly allocated [memLS]; it
    is identified by its allocation number. *)
Definition LockSystem := nat.

(** [dataprovider.CachedUser].  [Expiration] is a [time.Time]: [None] is
    the zero time (never expires), [Some t] an instant in nanoseconds. *)
Record CachedUser := {
  cu_User : User;
  cu_Password : string;
  cu_LockSystem : LockSystem;
  cu_Expiration : option Z
}.

(** [http.Header] is a [map[string][]string]. *)
Record Request := {
  Method : string;
  URL_Path : string;
  Header : gmap string (list string);
  RemoteAddr : string
}.

Definition set_RemoteAddr (ip : string) (r : Request) : Request :=
  {| Method := Method r; URL_Path := URL_Path r; Header := Header r; RemoteAddr := ip |}.

Definition set_Method (m : string) (r : Request) : Request :=
  {| Method := m; URL_Path := URL_Path r; Header := Header r; RemoteAddr := RemoteAddr r |}.

Definition set_Header (h : gmap string (list string)) (r : Request) : Request :=
  {| Method := Method r; URL_Path := URL_Path r; Header := h; RemoteAddr := RemoteAddr r |}.

(** [x509.Certificate], [tls.ConnectionState] and the certificate manager
    ([certMgr], a package variable that may be nil). *)
Record Certificate := { Subject : string; SerialNumber : Z }.

Record ConnectionState := {
  PeerCertificates : list Certificate;
  VerifiedChains : list (list Certificate)
}.

Record CertManager := {
  IsRevoked : option Certificate -> option Certificate -> bool
}.

(** The filesystem handle returned by [user.GetFilesystem] and what
    [connection.Stat] reports. *)
Definition Fs := nat.
Record FileInfo := { IsDir : bool }.

(** The request context built by [ServeHTTP]. *)
Record Context := { requestID : string; requestStart : Z }.

(** [Connection], made of [common.NewBaseConnection(id, protocol, user, fs)]
    and the request. *)
Record Connection := {
  conn_ID : string;
  conn_protocol : string;
  conn_User : User;
  conn_Fs : Fs;
  conn_request : Request
}.

(** The part of the server configuration that [authenticate] reads:
    [s.config.Cache.Users]. *)
Record webDavServer := {
  ExpirationTime : Z;
  MaxSize : Z
}.

(** What has been written to an [http.ResponseWriter]: the header map,
    the status line (once written) and the body chunks, oldest first. *)
Variant BodyChunk :=
  | BodyBytes (s : string)                   (* w.Write([]byte(s)) *)
  | BodyErrorLine (e : error).               (* fmt.Fprintln(w, e.Error()) *)

Record ResponseWriter := {
  rw_header : gmap string (list string);
  rw_status : option Z;
  rw_body : list BodyChunk
}.

Variant HostEvent := HostEventLoginFailed | HostEventUserNotFound.
Variant LogLevel := LevelDebug | LevelWarn.
Variant LogArg := LStr (s : string) | LInt (z : Z).

(** ** The calls made to the collaborators, in program order *)
Inductive Event :=
  | EvLog (lvl : LogLevel) (connectionID : string) (format : string) (args : list LogArg)
  | EvIsNewConnectionAllowed
  | EvIsBanned (ip : string)
  | EvExecutePostConnectHook (ip protocol : string)
  | EvCheckUserAndPass (username password ip protocol : string)
  | EvNewMemLS (ls : LockSystem)
  | EvGetFilesystem (u : User) (connectionID : string)
  | EvCheckRootPath (fs : Fs) (username : string) (uid gid : Z)
  | EvFsClose (fs : Fs)
  | EvXidNew
  | EvGetActiveSessions (username : string)
  | EvGetQuotaTracking
  | EvAddLoginAttempt (method : string)
  | EvConnectionFailedLog (username ip method protocol : string) (err : error)
  | EvAddDefenderEvent (ip : string) (event : HostEvent)
  | EvAddLoginResult (method : string) (err : option error)
  | EvExecutePostLoginHook (u : User) (method ip protocol : string) (err : option error)
  | EvConnectionsAdd (c : Connection)
  | EvConnectionsRemove (id : string)
  | EvUpdateLastLogin (u : User)
  | EvStat (path : string)
  | EvHandlerServeHTTP (c : Connection) (ls : option LockSystem) (ctx : Context) (r : Request).

(** ** The world: shared state and the trace of calls

    [cache] is [dataprovider]'s WebDAV users cache, [clock] what
    [time.Now()] reads, [next_ls] the number of lock systems allocated so
    far, and [trace] the calls made so far, the most recent one first. *)
Record World := {
  cache : gmap string CachedUser;
  clock : Z;
  next_ls : nat;
  trace : list Event
}.

Definition M (A : Type) : Type := World -> A * World.

#[global] Instance M_ret : MRet M := fun A (a : A) (w : World) => (a, w).
#[global] Instance M_bind : MBind M := fun A B (f : A -> M B) (m : M A) (w : World) =>
  let (a, w1) := m w in f a w1.

Definition emit (e : Event) : M unit := fun w =>
  (tt, {| cache := cache w; clock := clock w; next_ls := next_ls w; trace := e :: trace w |}).

Definition get_world : M World := fun w => (w, w).

Definition set_cache (c : gmap string CachedUser) : M unit := fun w =>
  (tt, {| cache := c; clock := clock w; next_ls := next_ls w; trace := trace w |}).

(** [time.Now()] *)
Definition time_Now : M Z := fun w => (clock w, w).

(** ** Collaborators

    Functions and constants of other packages.  A function whose answer
    depends on state outside this file takes the world it is asked in;
    every such call is also recorded in the trace. *)
Class Collaborators := {
  (* constants of packages common and dataprovider *)
  ProtocolWebDAV : string;
  LoginMethodPassword : string;
  SFTPFilesystemProvider : Z;
  ProxyProtocol : Z;                         (* common.Config.ProxyProtocol *)
  (* Go standard library *)
  BasicAuth : Request -> option (string * string);
  CanonicalHeaderKey : string -> string;
  path_Clean : string -> string;
  filepath_IsAbs : string -> bool;
  strings_TrimSpace : string -> string;
  (* utils *)
  GetIPFromRemoteAddress : string -> string;
  (* common *)
  IsNewConnectionAllowed : World -> bool;
  IsBanned : World -> string -> bool;
  ExecutePostConnectHook : World -> string -> string -> option error;
  GetActiveSessions : World -> string -> Z;
  BaseConnection_GetID : Connection -> string;
  (* dataprovider *)
  CheckUserAndPass : World -> string -> string -> string -> string -> User * option error;
  CacheWebDAVUser : CachedUser -> Z -> gmap string CachedUser -> gmap string CachedUser;
  GetQuotaTracking : World -> Z;
  IsLoginMethodAllowed : User -> string -> bool;
  HasOverlappedMappedPaths : User -> bool;
  IsLoginFromAddrAllowed : User -> string -> bool;
  GetFilesystem : World -> User -> string -> Fs + error;
  (* xid, the connection's filesystem, golang.org/x/net/webdav *)
  xid_New : World -> string;
  Connection_Stat : World -> Connection -> Context -> string -> FileInfo + error;
  Handler_ServeHTTP : World -> Connection -> option LockSystem -> Context -> Request ->
                      ResponseWriter -> ResponseWriter
}.

(** ** TLS trust verifier (server.go, lines 82-107) *)

(** The [for ... range state.VerifiedChains] loop with its early return. *)
Fixpoint verifyChains (mgr : CertManager) (clientCrt : option Certificate)
    (clientCrtName : string) (chains : list (list Certificate)) : M (option error) :=
  match chains with
  | [] => mret None
  | verifiedChain :: rest =>
      let caCrt := last verifiedChain in
      if IsRevoked mgr clientCrt caCrt then
        emit (EvLog LevelDebug ""
                "tls handshake error, client certificate %#v has been revoked"
                [LStr clientCrtName]) ;;
        mret (Some ErrCrtRevoked)
      else verifyChains mgr clientCrt clientCrtName rest
  end.

Definition verifyTLSConnection (certMgr : option CertManager) (state : ConnectionState)
    : M (option error) :=
  match certMgr with
  | Some mgr =>
      let clientCrt := head (PeerCertificates state) in
      let clientCrtName := from_option Subject "" clientCrt in
      if bool_decide (length (VerifiedChains state) = 0%nat) then
        emit (EvLog LevelWarn ""
                "TLS connection cannot be verified: unable to get verification chain" []) ;;
        mret (Some ErrChainUnverifiable)
      else verifyChains mgr clientCrt clientCrtName (VerifiedChains state)
  | None => mret None
  end.

(** ** Helpers of the Go standard library *)

Definition MethodGet : string := "GET".
Definition MethodHead : string := "HEAD".
Definition StatusMultiStatus : Z := 207.
Definition StatusUnauthorized : Z := 401.
Definition StatusForbidden : Z := 403.
Definition StatusInternalServerError : Z := 500.
Definition StatusServiceUnavailable : Z := 503.

(** The double quote character, for the realm of the challenge header. *)
Definition dquote : string := String (ascii_of_nat 34) "".

(** [strings.Index(s, substr)]: the byte index of the first occurrence of
    [substr] in [s], or -1. *)
Fixpoint strings_Index_from (i : Z) (s substr : string) : Z :=
  if String.prefix substr s then i
  else match s with
       | EmptyString => (-1)%Z
       | String _ s' => strings_Index_from (i + 1) s' substr
       end.

Definition strings_Index (s substr : string) : Z := strings_Index_from 0 s substr.

(** [s[:i]] for [0 <= i <= len(s)]. *)
Definition slice_to (s : string) (i : Z) : string := String.substring 0 (Z.to_nat i) s.

(** Go [int64] wrap-around. *)
Definition wrap_int64 (z : Z) : Z := ((z + 2 ^ 63) mod 2 ^ 64 - 2 ^ 63)%Z.

(** [time.Minute], in nanoseconds. *)
Definition time_Minute : Z := 60000000000.

(** [w.WriteHeader(code)]: the first status written wins. *)
Definition WriteHeader (code : Z) (rw : ResponseWriter) : ResponseWriter :=
  {| rw_header := rw_header rw;
     rw_status := match rw_status rw with Some c => Some c | None => Some code end;
     rw_body := rw_body rw |}.

(** [w.Write] and [fmt.Fprintln(w, ...)]: an implicit 200 when no status
    was written before. *)
Definition Write (chunk : BodyChunk) (rw : ResponseWriter) : ResponseWriter :=
  {| rw_header := rw_header rw;
     rw_status := match rw_status rw with Some c => Some c | None => Some 200%Z end;
     rw_body := (rw_body rw ++ [chunk])%list |}.

(** Modelled from the spec: [utils.IsStringInSlice], the membership test
    behind "denied-protocol set contains this protocol". *)
Definition IsStringInSlice (obj : string) (l : list string) : bool :=
  existsb (String.eqb obj) l.

(** Modelled from the spec: [CachedUser.IsExpired] of package dataprovider.
    "A CachedCredential is returned as valid only if its expiration is
    unset or strictly in the future": it is expired when the expiration is
    set and not after the current time. *)
Definition IsExpired (c : CachedUser) : M bool :=
  now ← time_Now;
  mret (match cu_Expiration c with
        | None => false
        | Some t => negb (now <? t)%Z
        end).

(** Modelled from the spec: [dataprovider.GetCachedWebDAVUser] and
    [dataprovider.RemoveCachedWebDAVUser], the [get] and [remove] of the
    credential cache. *)
Definition GetCachedWebDAVUser (username : string) : M (option CachedUser) :=
  fun w => (cache w !! username, w).

Definition RemoveCachedWebDAVUser (username : string) : M unit :=
  fun w => set_cache (delete username (cache w)) w.

(** [webdav.NewMemLS()]: allocates the next lock system. *)
Definition NewMemLS : M LockSystem := fun w =>
  (next_ls w,
   {| cache := cache w; clock := clock w; next_ls := S (next_ls w);
      trace := EvNewMemLS (next_ls w) :: trace w |}).

Section Server.
Context `{Collaborators}.

(** [http.Header]: [Get], [Add] and [Set] canonicalize the key. *)
Definition Header_Get (h : gmap string (list string)) (key : string) : string :=
  match h !! CanonicalHeaderKey key with
  | Some (v :: _) => v
  | _ => ""
  end.

Definition Header_Add (h : gmap string (list string)) (key value : string)
    : gmap string (list string) :=
  <[CanonicalHeaderKey key := (default [] (h !! CanonicalHeaderKey key) ++ [value])%list]> h.

Definition Header_Set (h : gmap string (list string)) (key value : string)
    : gmap string (list string) :=
  <[CanonicalHeaderKey key := [value]]> h.

Definition rw_Header_Set (key value : string) (rw : ResponseWriter) : ResponseWriter :=
  {| rw_header := Header_Set (rw_header rw) key value;
     rw_status := rw_status rw; rw_body := rw_body rw |}.

(** [http.Error(w, err.Error(), code)] *)
Definition http_Error (e : error) (code : Z) (rw : ResponseWriter) : ResponseWriter :=
  Write (BodyErrorLine e)
    (WriteHeader code
       (rw_Header_Set "X-Content-Type-Options" "nosniff"
          (rw_Header_Set "Content-Type" "text/plain; charset=utf-8" rw))).

Definition xForwardedFor : string := CanonicalHeaderKey "X-Forwarded-For".
Definition xRealIP : string := CanonicalHeaderKey "X-Real-IP".

(** Calls to collaborators whose answer depends on outside state: the call
    is recorded, then answered in the world it was made in. *)
Definition call {A : Type} (e : Event) (answer : World -> A) : M A :=
  emit e ;; w ← get_world; mret (answer w).

(** ** checkRemoteAddress (lines 312-332) *)
Definition checkRemoteAddress (r : Request) : Request :=
  if negb (ProxyProtocol =? 0)%Z then r
  else
    let ip :=
      let xrip := Header_Get (Header r) xRealIP in
      if negb (xrip =? "") then xrip
      else
        let xff := Header_Get (Header r) xForwardedFor in
        if negb (xff =? "") then
          let i := strings_Index xff ", " in
          let i := if (i =? -1)%Z then Z.of_nat (String.length xff) else i in
          strings_TrimSpace (slice_to xff i)
        else ""
    in
    if (0 <? String.length ip)%nat then set_RemoteAddr ip r else r.

(** ** updateLoginMetrics (lines 334-346) *)
Definition updateLoginMetrics (user : User) (ip : string) (err : option error) : M unit :=
  emit (EvAddLoginAttempt LoginMethodPassword) ;;
  match err with
  | Some e =>
      emit (EvConnectionFailedLog (Username user) ip LoginMethodPassword ProtocolWebDAV e) ;;
      let event := match e with
                   | RecordNotFoundError _ => HostEventUserNotFound
                   | _ => HostEventLoginFailed
                   end in
      emit (EvAddDefenderEvent ip event)
  | None => mret tt
  end ;;
  emit (EvAddLoginResult LoginMethodPassword err) ;;
  emit (EvExecutePostLoginHook user LoginMethodPassword ip ProtocolWebDAV err).

(** ** authenticate (lines 201-248) *)

(** Lines 221-247, reached on a cache miss and after the removal of an
    expired entry: full verification against the identity provider. *)
Definition fullVerification (s : webDavServer) (username password ip : string)
    : M (User * bool * option LockSystem * option error) :=
  '(user, err) ← call (EvCheckUserAndPass username password ip ProtocolWebDAV)
                      (fun w => CheckUserAndPass w username password ip ProtocolWebDAV);
  match err with
  | Some e =>
      let user := set_Username username user in
      updateLoginMetrics user ip (Some e) ;;
      mret (user, false, None, Some e)
  | None =>
      lockSystem ← NewMemLS;
      (if negb (password =? "") then
         expiration ←
           (if (0 <? ExpirationTime s)%Z then
              now ← time_Now;
              mret (Some (now + wrap_int64 (ExpirationTime s * time_Minute))%Z)
            else mret None);
         let cachedUser := {| cu_User := user; cu_Password := password;
                              cu_LockSystem := lockSystem; cu_Expiration := expiration |} in
         w ← get_world;
         set_cache (CacheWebDAVUser cachedUser (MaxSize s) (cache w)) ;;
         if negb (FsProvider user =? SFTPFilesystemProvider)%Z then
           res ← call (EvGetFilesystem user "temp") (fun w => GetFilesystem w user "temp");
           match res with
           | inl tempFs =>
               emit (EvCheckRootPath tempFs (Username user) (UID user) (GID user)) ;;
               emit (EvFsClose tempFs)
           | inr _ => mret tt
           end
         else mret tt
       else mret tt) ;;
      mret (user, false, Some lockSystem, None)
  end.

Definition authenticate (s : webDavServer) (r : Request) (ip : string)
    : M (User * bool * option LockSystem * option error) :=
  match BasicAuth r with
  | None => mret (zeroUser, false, None, Some err401)
  | Some (username, password) =>
      result ← GetCachedWebDAVUser username;
      match result with
      | Some cachedUser =>
          expired ← IsExpired cachedUser;
          if (expired : bool) then
            RemoveCachedWebDAVUser username ;;
            fullVerification s username password ip
          else if negb (password =? "") && (cu_Password cachedUser =? password) then
            mret (cu_User cachedUser, true, Some (cu_LockSystem cachedUser), None)
          else
            updateLoginMetrics (cu_User cachedUser) ip (Some ErrInvalidCredentials) ;;
            mret (zeroUser, false, None, Some ErrInvalidCredentials)
      | None => fullVerification s username password ip
      end
  end.

(** ** validateUser (lines 250-285) *)
Definition validateUser (user : User) (r : Request) : M (string * option error) :=
  connID ← call EvXidNew xid_New;
  let connectionID := ProtocolWebDAV +:+ "_" +:+ connID in
  if negb (filepath_IsAbs (HomeDir user)) then
    emit (EvLog LevelWarn connectionID
            "user %#v has an invalid home dir: %#v. Home dir must be an absolute path, login not allowed"
            [LStr (Username user); LStr (HomeDir user)]) ;;
    mret (connID, Some (ErrInvalidHomeDir (HomeDir user)))
  else if IsStringInSlice ProtocolWebDAV (DeniedProtocols user) then
    emit (EvLog LevelDebug connectionID
            "cannot login user %#v, protocol DAV is not allowed" [LStr (Username user)]) ;;
    mret (connID, Some (ErrProtocolDenied (Username user)))
  else if negb (IsLoginMethodAllowed user LoginMethodPassword) then
    emit (EvLog LevelDebug connectionID
            "cannot login user %#v, password login method is not allowed"
            [LStr (Username user)]) ;;
    mret (connID, Some (ErrLoginMethodDenied (Username user)))
  else
    let rest : M (string * option error) :=
      quotaTracking ← call EvGetQuotaTracking GetQuotaTracking;
      if (0 <? quotaTracking)%Z && HasOverlappedMappedPaths user then
        emit (EvLog LevelDebug connectionID
                "cannot login user %#v, overlapping mapped folders are allowed only with quota tracking disabled"
                [LStr (Username user)]) ;;
        mret (connID, Some ErrOverlappedFolders)
      else if negb (IsLoginFromAddrAllowed user (RemoteAddr r)) then
        emit (EvLog LevelDebug connectionID
                "cannot login user %#v, remote address is not allowed: %v"
                [LStr (Username user); LStr (RemoteAddr r)]) ;;
        mret (connID, Some (ErrAddrNotAllowed (Username user) (RemoteAddr r)))
      else mret (connID, None)
    in
    if (0 <? MaxSessions user)%Z then
      activeSessions ← call (EvGetActiveSessions (Username user))
                            (fun w => GetActiveSessions w (Username user));
      if (MaxSessions user <=? activeSessions)%Z then
        emit (EvLog LevelDebug connID
                "authentication refused for user: %#v, too many open sessions: %v/%v"
                [LStr (Username user); LInt activeSessions; LInt (MaxSessions user)]) ;;
        mret (connID, Some (ErrTooManySessions activeSessions))
      else rest
    else rest.

(** ** checkRequestMethod (lines 110-126)

    Returns the flag together with the request as the call leaves it. *)
Definition checkRequestMethod (ctx : Context) (r : Request) (connection : Connection)
    : M (bool * Request) :=
  if (Method r =? MethodGet) || (Method r =? MethodHead) then
    let p := path_Clean (URL_Path r) in
    res ← call (EvStat p) (fun w => Connection_Stat w connection ctx p);
    match res with
    | inl info =>
        if IsDir info then
          if Method r =? MethodHead then mret (true, r)
          else
            let r := set_Method "PROPFIND" r in
            if Header_Get (Header r) "Depth" =? "" then
              mret (false, set_Header (Header_Add (Header r) "Depth" "1") r)
            else mret (false, r)
        else mret (false, r)
    | inr _ => mret (false, r)
    end
  else mret (false, r).

(** ** ServeHTTP (lines 129-199)

    The function is split at its two hand-over points.  The recovery from
    panics (lines 130-135) has no counterpart: the collaborators are total
    functions here. *)

Definition set_request (r : Request) (c : Connection) : Connection :=
  {| conn_ID := conn_ID c; conn_protocol := conn_protocol c; conn_User := conn_User c;
     conn_Fs := conn_Fs c; conn_request := r |}.

(** Lines 186-198, with the deferred [common.Connections.Remove] of line
    182.  [connection.request] is the request itself, so it sees the
    rewrite of [checkRequestMethod]. *)
Definition ServeHTTP_dispatch (ctx : Context) (rw : ResponseWriter) (r : Request)
    (connection : Connection) (lockSystem : option LockSystem)
    : M (Request * ResponseWriter) :=
  '(handled, r) ← checkRequestMethod ctx r connection;
  let connection := set_request r connection in
  if (handled : bool) then
    let rw := Write (BodyBytes "")
                (WriteHeader StatusMultiStatus
                   (rw_Header_Set "Content-Type" "text/xml; charset=utf-8" rw)) in
    emit (EvConnectionsRemove (BaseConnection_GetID connection)) ;;
    mret (r, rw)
  else
    rw ← call (EvHandlerServeHTTP connection lockSystem ctx r)
              (fun w => Handler_ServeHTTP w connection lockSystem ctx r rw);
    emit (EvConnectionsRemove (BaseConnection_GetID connection)) ;;
    mret (r, rw).

Definition realm : string := "Basic realm=" +:+ dquote +:+ "SFTPGo WebDAV" +:+ dquote.

(** Lines 151-184: authentication, identity-level admission, filesystem,
    registration of the connection. *)
Definition ServeHTTP_login (s : webDavServer) (rw : ResponseWriter) (r : Request)
    (ipAddr : string) : M (Request * ResponseWriter) :=
  '(user, _, lockSystem, err) ← authenticate s r ipAddr;
  match err with
  | Some _ =>
      mret (r, http_Error err401 StatusUnauthorized (rw_Header_Set "WWW-Authenticate" realm rw))
  | None =>
      '(connectionID, err) ← validateUser user r;
      match err with
      | Some e =>
          updateLoginMetrics user ipAddr (Some e) ;;
          mret (r, http_Error e StatusForbidden rw)
      | None =>
          res ← call (EvGetFilesystem user connectionID)
                     (fun w => GetFilesystem w user connectionID);
          match res with
          | inr e =>
              updateLoginMetrics user ipAddr (Some e) ;;
              mret (r, http_Error e StatusInternalServerError rw)
          | inl fs =>
              updateLoginMetrics user ipAddr None ;;
              now ← time_Now;
              let ctx := {| requestID := connectionID; requestStart := now |} in
              let connection :=
                {| conn_ID := connectionID; conn_protocol := ProtocolWebDAV;
                   conn_User := user; conn_Fs := fs; conn_request := r |} in
              emit (EvConnectionsAdd connection) ;;
              emit (EvUpdateLastLogin user) ;;
              ServeHTTP_dispatch ctx rw r connection lockSystem
          end
      end
  end.

(** Lines 136-150: connection-level admission, then the hand-over. *)
Definition ServeHTTP (s : webDavServer) (rw : ResponseWriter) (r : Request)
    : M (Request * ResponseWriter) :=
  allowed ← call EvIsNewConnectionAllowed IsNewConnectionAllowed;
  if negb (allowed : bool) then
    emit (EvLog LevelDebug "" "connection refused, configured limit reached" []) ;;
    mret (r, http_Error ErrConnectionDenied StatusServiceUnavailable rw)
  else
    let r := checkRemoteAddress r in
    let ipAddr := GetIPFromRemoteAddress (RemoteAddr r) in
    banned ← call (EvIsBanned ipAddr) (fun w => IsBanned w ipAddr);
    if (banned : bool) then mret (r, http_Error ErrConnectionDenied StatusForbidden rw)
    else
      hook ← call (EvExecutePostConnectHook ipAddr ProtocolWebDAV)
                  (fun w => ExecutePostConnectHook w ipAddr ProtocolWebDAV);
      match hook with
      | Some _ => mret (r, http_Error ErrConnectionDenied StatusForbidden rw)
      | None => ServeHTTP_login s rw r ipAddr
      end.

End Server.

(** ** Observations on a trace *)

(** Number of full verifications the identity provider was asked for. *)
Fixpoint provider_calls (t : list Event) : nat :=
  match t with
  | [] => 0
  | EvCheckUserAndPass _ _ _ _ :: t' => S (provider_calls t')
  | _ :: t' => provider_calls t'
  end.

(** Number of questions put to the connection registry about the active
    sessions of a user, and to the data provider about quota tracking. *)
Fixpoint session_queries (t : list Event) : nat :=
  match t with
  | [] => 0
  | EvGetActiveSessions _ :: t' => S (session_queries t')
  | _ :: t' => session_queries t'
  end.

Fixpoint quota_queries (t : list Event) : nat :=
  match t with
  | [] => 0
  | EvGetQuotaTracking :: t' => S (quota_queries t')
  | _ :: t' => quota_queries t'
  end.

(** Number of requests handed to the downstream protocol handler. *)
Fixpoint handler_calls (t : list Event) : nat :=
  match t with
  | [] => 0
  | EvHandlerServeHTTP _ _ _ _ :: t' => S (handler_calls t')
  | _ :: t' => handler_calls t'
  end.

(** The three unconditional calls of the outcome reporter
    ([updateLoginMetrics]): attempt counter, result counter, post-login
    hook. *)
Fixpoint login_attempts (t : list Event) : nat :=
  match t with
  | [] => 0
  | EvAddLoginAttempt _ :: t' => S (login_attempts t')
  | _ :: t' => login_attempts t'
  end.

Fixpoint login_results (t : list Event) : nat :=
  match t with
  | [] => 0
  | EvAddLoginResult _ _ :: t' => S (login_results t')
  | _ :: t' => login_results t'
  end.

Fixpoint post_login_hooks (t : list Event) : nat :=
  match t with
  | [] => 0
  | EvExecutePostLoginHook _ _ _ _ _ :: t' => S (post_login_hooks t')
  | _ :: t' => post_login_hooks t'
  end.

(** How often the outcome reporter ran: its three unconditional calls,
    counted side by side. *)
Definition reports (t : list Event) : nat * nat * nat :=
  (login_attempts t, login_results t, post_login_hooks t).

Definition once_more (n : nat * nat * nat) : nat * nat * nat :=
  let '(a, b, c) := n in (S a, S b, S c).

(** The world once the call [e] has been recorded. *)
Definition after (e : Event) (w : World) : World := (emit e w).2.

(** The cache as the lookup of [authenticate] leaves it for [username]:
    an expired entry of that name is gone, nothing else has changed. *)
Definition cache_after_lookup (username : string) (w : World) : gmap string CachedUser :=
  match cache w !! username with
  | Some c => if (IsExpired c w).1 then delete username (cache w) else cache w
  | None => cache w
  end.

(** ** The admission sequence as the specification words it

    "Identity-level sequence ... each check short-circuiting": the six
    checks in order, each with the condition that rejects and the error it
    rejects with; the outcome is the first rejection. *)
Section AdmissionSpec.
Context `{Collaborators}.

Definition identity_checks (user : User) (r : Request) (activeSessions quotaTracking : Z)
    : list (bool * error) :=
  [ (negb (filepath_IsAbs (HomeDir user)), ErrInvalidHomeDir (HomeDir user));
    (IsStringInSlice ProtocolWebDAV (DeniedProtocols user), ErrProtocolDenied (Username user));
    (negb (IsLoginMethodAllowed user LoginMethodPassword),
     ErrLoginMethodDenied (Username user));
    ((0 <? MaxSessions user)%Z && (MaxSessions user <=? activeSessions)%Z,
     ErrTooManySessions activeSessions);
    ((0 <? quotaTracking)%Z && HasOverlappedMappedPaths user, ErrOverlappedFolders);
    (negb (IsLoginFromAddrAllowed user (RemoteAddr r)),
     ErrAddrNotAllowed (Username user) (RemoteAddr r)) ].

(** "format: protocol-tag + separator + random unique token" *)
Definition generated_format (token : string) : string := ProtocolWebDAV +:+ "_" +:+ token.

End AdmissionSpec.

Fixpoint first_failure (checks : list (bool * error)) : option error :=
  match checks with
  | [] => None
  | (true, e) :: _ => Some e
  | (false, _) :: rest => first_failure rest
  end.

(** No comma in a header value. *)
Fixpoint no_comma (s : string) : bool :=
  match s with
  | EmptyString => true
  | String c s' => negb (Ascii.eqb c ",") && no_comma s'
  end.

(** ** Further observations on a trace *)


(** Level and connection identifier of the log lines, most recent first. *)
Fixpoint logged (t : list Event) : list (LogLevel * string) :=
  match t with
  | [] => []
  | EvLog lvl id _ _ :: t' => (lvl, id) :: logged t'
  | _ :: t' => logged t'
  end.




Fixpoint stat_calls (t : list Event) : nat :=
  match t with
  | [] => 0
  | EvStat _ :: t' => S (stat_calls t')
  | _ :: t' => stat_calls t'
  end.

(** Filesystems opened under the throwaway identifier [temp], root-path
    checks and filesystems closed. *)
Fixpoint temp_opens (t : list Event) : nat :=
  match t with
  | [] => 0
  | EvGetFilesystem _ id :: t' => if id =? "temp" then S (temp_opens t') else temp_opens t'
  | _ :: t' => temp_opens t'
  end.

Fixpoint root_checks (t : list Event) : nat :=
  match t with
  | [] => 0
  | EvCheckRootPath _ _ _ _ :: t' => S (root_checks t')
  | _ :: t' => root_checks t'
  end.

Fixpoint fs_closes (t : list Event) : nat :=
  match t with
  | [] => 0
  | EvFsClose _ :: t' => S (fs_closes t')
  | _ :: t' => fs_closes t'
  end.



(** The entry that [authenticate] builds for the cache (lines 229-236). *)
Definition new_entry (s : webDavServer) (user : User) (password : string)
    (lockSystem : LockSystem) (now : Z) : CachedUser :=
  {| cu_User := user; cu_Password := password; cu_LockSystem := lockSystem;
     cu_Expiration := if (0 <? ExpirationTime s)%Z
                      then Some (now + wrap_int64 (ExpirationTime s * time_Minute))%Z
                      else None |}.



(** What the downstream handler was called with, most recent first. *)
Fixpoint handler_events (t : list Event)
    : list (Connection * option LockSystem * Context * Request) :=
  match t with
  | [] => []
  | EvHandlerServeHTTP c ls ctx r :: t' => (c, ls, ctx, r) :: handler_events t'
  | _ :: t' => handler_events t'
  end.

(** The rewrite of a GET on a directory (lines 119-122): the method
    becomes PROPFIND and 1 is added to the Depth header when the header
    reads as empty. *)
Definition as_PROPFIND `{Collaborators} (r : Request) : Request :=
  let r := set_Method "PROPFIND" r in
  if Header_Get (Header r) "Depth" =? "" then
    set_Header (Header_Add (Header r) "Depth" "1") r
  else r.

(** The outcome that [ServeHTTP] reports for a login (lines 151-172): the
    first error among authentication, admission and the opening of the
    filesystem, or success. *)
Definition first_error {A : Type} (auth admission : option error) (opened : A + error)
    : option error :=
  match auth with
  | Some e => Some e
  | None =>
      match admission with
      | Some e => Some e
      | None => match opened with inr e => Some e | inl _ => None end
      end
  end.

(** No space in a header value. *)
Fixpoint no_space (s : string) : bool :=
  match s with
  | EmptyString => true
  | String c s' => negb (Ascii.eqb c " ") && no_space s'
  end.

(** The largest [ExpirationTime], in minutes, whose duration in
    nanoseconds fits an [int64]. *)
Definition max_minutes : Z := 153722867.

(** ** listenAndServe (lines 40-80)

    The function builds the [http.Server], decides between clear text and
    TLS, records the binding in [serviceStatus.Bindings] and starts to
    listen.  It is modelled up to the call that blocks: the result is the
    listener that is started, the binding as the function leaves it, the
    recorded bindings and the format of the line logged at info level.
    The [ErrorLog] of the server, a wrapper around the logger, is left
    out. *)

(** The fields of [Binding] the function reads; [bind_Address] is what
    [GetAddress()] returns. *)
Record Binding := {
  bind_Address : string;
  EnableHTTPS : bool;
  ClientAuthType : Z
}.

(** [s.config.Cors] *)
Record CorsConfig := {
  Enabled : bool;
  AllowedOrigins : list string;
  AllowedMethods : list string;
  AllowedHeaders : list string;
  ExposedHeaders : list string;
  MaxAge : Z;
  AllowCredentials : bool
}.

(** [cors.Options] *)
Record CorsOptions := {
  opt_AllowedOrigins : list string;
  opt_AllowedMethods : list string;
  opt_AllowedHeaders : list string;
  opt_ExposedHeaders : list string;
  opt_MaxAge : Z;
  opt_AllowCredentials : bool;
  OptionsPassthrough : bool
}.

(** The chain of handlers: the server itself, wrapped by the compressor,
    wrapped by CORS when enabled. *)
Inductive HandlerChain :=
  | ServerHandler
  | CompressorHandler (next : HandlerChain)
  | CorsHandler (options : CorsOptions) (next : HandlerChain).

Variant ClientAuthMode := NoClientCert | RequireAndVerifyClientCert.

(** [tls.Config]: [GetCertificate] is always the certificate manager's;
    [ClientCAs] and [VerifyConnection] record whether the root CAs of the
    manager and [s.verifyTLSConnection] are installed. *)
Record TLSConfig := {
  MinVersion : Z;
  ClientCAs : bool;
  ClientAuth : ClientAuthMode;
  VerifyConnection : bool
}.

Definition VersionTLS12 : Z := 771.          (* 0x0303 *)
Definition time_Second : Z := 1000000000.

Record HttpServer := {
  Addr : string;
  ReadHeaderTimeout : Z;
  IdleTimeout : Z;
  MaxHeaderBytes : Z;
  srv_Handler : HandlerChain;
  srv_TLSConfig : option TLSConfig
}.

Variant Listener :=
  | ListenAndServe (srv : HttpServer)
  | ListenAndServeTLS (srv : HttpServer).

Definition set_EnableHTTPS (b : bool) (binding : Binding) : Binding :=
  {| bind_Address := bind_Address binding; EnableHTTPS := b;
     ClientAuthType := ClientAuthType binding |}.

Definition listenAndServe (certMgr : option CertManager) (cors : CorsConfig)
    (binding : Binding) (serviceStatus_Bindings : list Binding)
    : Listener * Binding * list Binding * string :=
  let handler := CompressorHandler ServerHandler in
  let handler :=
    if Enabled cors then
      CorsHandler {| opt_AllowedOrigins := AllowedOrigins cors;
                     opt_AllowedMethods := AllowedMethods cors;
                     opt_AllowedHeaders := AllowedHeaders cors;
                     opt_ExposedHeaders := ExposedHeaders cors;
                     opt_MaxAge := MaxAge cors;
                     opt_AllowCredentials := AllowCredentials cors;
                     OptionsPassthrough := true |} handler
    else handler in
  let httpServer (tlsConfig : option TLSConfig) :=
    {| Addr := bind_Address binding;
       ReadHeaderTimeout := 30 * time_Second;
       IdleTimeout := 120 * time_Second;
       MaxHeaderBytes := Z.shiftl 1 16;
       srv_Handler := handler;
       srv_TLSConfig := tlsConfig |} in
  let clear_text :=
    let binding := set_EnableHTTPS false binding in
    (ListenAndServe (httpServer None), binding,
     (serviceStatus_Bindings ++ [binding])%list,
     "starting HTTP serving, binding: %v") in
  match certMgr with
  | Some _ =>
      if EnableHTTPS binding then
        let bindings := (serviceStatus_Bindings ++ [binding])%list in
        let tlsConfig :=
          {| MinVersion := VersionTLS12; ClientCAs := false;
             ClientAuth := NoClientCert; VerifyConnection := false |} in
        let tlsConfig :=
          if (ClientAuthType binding =? 1)%Z then
            {| MinVersion := MinVersion tlsConfig; ClientCAs := true;
               ClientAuth := RequireAndVerifyClientCert; VerifyConnection := true |}
          else tlsConfig in
        (ListenAndServeTLS (httpServer (Some tlsConfig)), binding, bindings,
         "starting HTTPS serving, binding: %v")
      else clear_text
  | None => clear_text
  end.

Definition serves_TLS (l : Listener) : bool :=
  match l with ListenAndServeTLS _ => true | ListenAndServe _ => false end.

Definition server_of (l : Listener) : HttpServer :=
  match l with ListenAndServeTLS srv => srv | ListenAndServe srv => srv end.

(** ** A concrete deployment, for the worked examples

    One instance of [Collaborators] per [Scenario]: an in-memory identity
    provider, a fixed set of directories, fixed answers of the connection
    registry and of the ban list. *)
Record Scenario := {
  sc_limit_reached : bool;
  sc_banned : list string;
  sc_accounts : list (string * string * User);
  sc_dirs : list string;
  sc_sessions : Z;
  sc_proxy : Z
}.

Definition demo_user (name home : string) : User :=
  {| Username := name; HomeDir := home; UID := 1000; GID := 1000; MaxSessions := 0;
     DeniedProtocols := []; FsProvider := 0 |}.

(** Basic-auth framing of the three header values the examples send:
    base64 of [alice:secret], [alice:wrong] and [alice:]. *)
Definition demo_BasicAuth (r : Request) : option (string * string) :=
  match Header r !! "Authorization" with
  | Some (v :: _) =>
      if v =? "Basic YWxpY2U6c2VjcmV0" then Some ("alice", "secret")
      else if v =? "Basic YWxpY2U6d3Jvbmc=" then Some ("alice", "wrong")
      else if v =? "Basic YWxpY2U6" then Some ("alice", "")
      else None
  | _ => None
  end.

(** Canonical form of the header names the examples use. *)
Definition demo_CanonicalHeaderKey (k : string) : string :=
  if k =? "X-Real-IP" then "X-Real-Ip"
  else if k =? "WWW-Authenticate" then "Www-Authenticate"
  else k.

Fixpoint demo_host (s : string) : string :=
  match s with
  | EmptyString => EmptyString
  | String c s' => if Ascii.eqb c ":" then EmptyString else String c (demo_host s')
  end.

Fixpoint demo_lookup (accounts : list (string * string * User)) (username password : string)
    : User * option error :=
  match accounts with
  | [] => (zeroUser, Some (RecordNotFoundError username))
  | (n, p, u) :: rest =>
      if n =? username then
        if p =? password then (u, None) else (zeroUser, Some ErrInvalidCredentials)
      else demo_lookup rest username password
  end.

Definition demo (sc : Scenario) : Collaborators :=
  {| ProtocolWebDAV := "DAV";
     LoginMethodPassword := "password";
     SFTPFilesystemProvider := 5;
     ProxyProtocol := sc_proxy sc;
     BasicAuth := demo_BasicAuth;
     CanonicalHeaderKey := demo_CanonicalHeaderKey;
     path_Clean := fun p => p;
     filepath_IsAbs := String.prefix "/";
     strings_TrimSpace := fun s => s;
     GetIPFromRemoteAddress := demo_host;
     IsNewConnectionAllowed := fun _ => negb (sc_limit_reached sc);
     IsBanned := fun _ ip => IsStringInSlice ip (sc_banned sc);
     ExecutePostConnectHook := fun _ _ _ => None;
     GetActiveSessions := fun _ _ => sc_sessions sc;
     BaseConnection_GetID := fun c => conn_protocol c +:+ "_" +:+ conn_ID c;
     CheckUserAndPass := fun _ username password _ _ =>
                           demo_lookup (sc_accounts sc) username password;
     CacheWebDAVUser := fun c _ m => <[Username (cu_User c) := c]> m;
     GetQuotaTracking := fun _ => 0%Z;
     IsLoginMethodAllowed := fun _ _ => true;
     HasOverlappedMappedPaths := fun _ => false;
     IsLoginFromAddrAllowed := fun _ _ => true;
     GetFilesystem := fun _ _ _ => inl 7%nat;
     xid_New := fun _ => "c5h2f1o6n88dkq2a0v0g";
     Connection_Stat := fun _ _ _ p =>
                          if IsStringInSlice p (sc_dirs sc) then inl {| IsDir := true |}
                          else inr (ExternalError "file does not exist");
     Handler_ServeHTTP := fun _ _ _ _ _ rw => Write (BodyBytes "handled downstream") rw |}.

Definition alice : User := demo_user "alice" "/srv/alice".

Definition plain : Scenario :=
  {| sc_limit_reached := false; sc_banned := []; sc_accounts := [("alice", "secret", alice)];
     sc_dirs := ["/docs"]; sc_sessions := 0; sc_proxy := 0 |}.

Definition world0 : World := {| cache := ∅; clock := 1000; next_ls := 0; trace := [] |}.
Definition rw0 : ResponseWriter := {| rw_header := ∅; rw_status := None; rw_body := [] |}.
Definition server0 : webDavServer := {| ExpirationTime := 0; MaxSize := 0 |}.

(** Requests of alice, with the passwords [secret], [wrong] and none. *)
Definition request_with (method target : string) (h : gmap string (list string)) : Request :=
  {| Method := method; URL_Path := target; Header := h; RemoteAddr := "10.0.0.1:4711" |}.

Definition req_secret : Request :=
  request_with "GET" "/docs" {["Authorization" := ["Basic YWxpY2U6c2VjcmV0"]]}.
Definition req_wrong : Request :=
  request_with "GET" "/docs" {["Authorization" := ["Basic YWxpY2U6d3Jvbmc="]]}.
Definition req_empty : Request :=
  request_with "GET" "/docs" {["Authorization" := ["Basic YWxpY2U6"]]}.
Definition req_anonymous : Request := request_with "GET" "/docs" ∅.

(** A provider that lets alice in without a password. *)
Definition open_door : Scenario :=
  {| sc_limit_reached := false; sc_banned := []; sc_accounts := [("alice", "", alice)];
     sc_dirs := ["/docs"]; sc_sessions := 0; sc_proxy := 0 |}.

(** A cache that holds alice's credentials, expired at 500 (the clock
    reads 1000), and one that holds them for ever. *)
Definition stale_entry : CachedUser :=
  {| cu_User := alice; cu_Password := "secret"; cu_LockSystem := 0; cu_Expiration := Some 500%Z |}.
Definition live_entry : CachedUser :=
  {| cu_User := alice; cu_Password := "secret"; cu_LockSystem := 0; cu_Expiration := None |}.

Definition world_stale : World :=
  {| cache := {["alice" := stale_entry]}; clock := 1000; next_ls := 1; trace := [] |}.
Definition world_live : World :=
  {| cache := {["alice" := live_entry]}; clock := 1000; next_ls := 1; trace := [] |}.

(** bob's home directory is relative. *)
Definition bob : User := demo_user "bob" "relative/path".

(** bob again, allowed one session, while the registry counts five. *)
Definition bob_limited : User :=
  {| Username := "bob"; HomeDir := "relative/path"; UID := 1000; GID := 1000;
     MaxSessions := 1; DeniedProtocols := []; FsProvider := 0 |}.

Definition crowded : Scenario :=
  {| sc_limit_reached := false; sc_banned := []; sc_accounts := [("alice", "secret", alice)];
     sc_dirs := ["/docs"]; sc_sessions := 5; sc_proxy := 0 |}.

(** A GET for a directory, with a Depth header whose value is empty. *)
Definition req_blank_depth : Request := request_with "GET" "/docs" {["Depth" := [""]]}.
Definition req_head : Request := request_with "HEAD" "/docs" ∅.

Definition ctx0 : Context := {| requestID := "c5h2f1o6n88dkq2a0v0g"; requestStart := 1000 |}.

Definition connection_of (r : Request) : Connection :=
  {| conn_ID := "c5h2f1o6n88dkq2a0v0g"; conn_protocol := "DAV"; conn_User := alice;
     conn_Fs := 7; conn_request := r |}.

(** A request forwarded by two proxies. *)
Definition req_forwarded : Request :=
  request_with "GET" "/docs" {["X-Forwarded-For" := ["203.0.113.9, 10.1.1.1"]]}.

(** The world after alice's first and second login through [open_door]. *)
Definition world_open1 : World :=
  {| cache := ∅; clock := 1000; next_ls := 1;
     trace := [EvNewMemLS 0; EvCheckUserAndPass "alice" "" "10.0.0.1" "DAV"] |}.

Definition world_open2 : World :=
  {| cache := ∅; clock := 1000; next_ls := 2;
     trace := [EvNewMemLS 1; EvCheckUserAndPass "alice" "" "10.0.0.1" "DAV";
               EvNewMemLS 0; EvCheckUserAndPass "alice" "" "10.0.0.1" "DAV"] |}.

(** The connection registry is full. *)
Definition full_house : Scenario :=
  {| sc_limit_reached := true; sc_banned := []; sc_accounts := [("alice", "secret", alice)];
     sc_dirs := ["/docs"]; sc_sessions := 0; sc_proxy := 0 |}.

(** A request that came through a reverse proxy. *)
Definition req_proxied : Request :=
  request_with "GET" "/docs"
    {["Authorization" := ["Basic YWxpY2U6c2VjcmV0"]; "X-Real-Ip" := ["203.0.113.9"]]}.

(** Two certification authorities; the manager knows that [acme_ca]
    revoked the certificate with serial number 7. *)
Definition leaf7 : Certificate := {| Subject := "CN=client"; SerialNumber := 7 |}.
Definition root_ca : Certificate := {| Subject := "CN=root"; SerialNumber := 1 |}.
Definition acme_ca : Certificate := {| Subject := "CN=acme"; SerialNumber := 2 |}.

Definition demo_mgr : CertManager :=
  {| IsRevoked := fun crt ca =>
       match crt, ca with
       | Some c, Some a => (SerialNumber c =? 7)%Z && (SerialNumber a =? 2)%Z
       | _, _ => false
       end |}.

Definition two_chains : ConnectionState :=
  {| PeerCertificates := [leaf7];
     VerifiedChains := [[leaf7; root_ca]; [leaf7; acme_ca]] |}.

(** Two verified chains, none of which ends in [acme_ca]. *)
Definition clean_chains : ConnectionState :=
  {| PeerCertificates := [leaf7];
     VerifiedChains := [[leaf7; root_ca]; [leaf7]] |}.

(** The world after alice's login with the wrong password, and after her
    login with the right one, both from [world0] through [plain]. *)
Definition world_rejected : World :=
  Eval vm_compute in (authenticate (H := demo plain) server0 req_wrong "10.0.0.1" world0).2.

Definition world_cached : World :=
  Eval vm_compute in (authenticate (H := demo plain) server0 req_secret "10.0.0.1" world0).2.

(** A server that keeps cached credentials for five minutes. *)
Definition server_ttl : webDavServer := {| ExpirationTime := 5; MaxSize := 0 |}.

(** A request whose X-Forwarded-For list is separated by bare commas. *)
Definition req_forwarded_bare : Request :=
  request_with "GET" "/docs" {["X-Forwarded-For" := ["203.0.113.9,10.1.1.1"]]}.

(** A GET for a directory without any Depth header. *)
Definition req_get_dir : Request := request_with "GET" "/docs" ∅.

(** A binding that asks for HTTPS with client certificates, and a CORS
    configuration that is switched off. *)
Definition binding_mtls : Binding :=
  {| bind_Address := ":8443"; EnableHTTPS := true; ClientAuthType := 1 |}.

Definition cors_off : CorsConfig :=
  {| Enabled := false; AllowedOrigins := []; AllowedMethods := []; AllowedHeaders := [];
     ExposedHeaders := []; MaxAge := 0; AllowCredentials := false |}.

(** * Properties *)

(** ** The state monad *)

Example strings_Index_comma_space : strings_Index "203.0.113.9, 10.1.1.1" ", " = 11%Z.
Proof. reflexivity. Qed.

Example strings_Index_bare_comma : strings_Index "203.0.113.9,10.1.1.1" ", " = (-1)%Z.
Proof. reflexivity. Qed.

Example slice_to_first : slice_to "203.0.113.9, 10.1.1.1" 11 = "203.0.113.9".
Proof. reflexivity. Qed.

Example wrap_int64_minutes : wrap_int64 (5 * time_Minute) = 300000000000%Z.
Proof. reflexivity. Qed.

Ltac mrun :=
  unfold call, emit, get_world, set_cache, time_Now, mbind, mret, M_bind, M_ret in *;
  cbn [fst snd] in *.

(** ** TLS trust verifier *)

Lemma verifyChains_revoked (mgr : CertManager) clientCrt name chains (w : World) :
  (∃ chain, chain ∈ chains ∧ IsRevoked mgr clientCrt (last chain) = true) →
  (verifyChains mgr clientCrt name chains w).1 = Some ErrCrtRevoked.
Proof.
  induction chains as [|c rest IH]; intros (chain & Hin & Hrev).
  - by apply elem_of_nil in Hin.
  - simpl. destruct (IsRevoked mgr clientCrt (last c)) eqn:Hc; [reflexivity|].
    apply IH. exists chain. split; [|done].
    apply elem_of_cons in Hin as [->|Hin]; [congruence|done].
Qed.

Lemma verifyChains_clean (mgr : CertManager) clientCrt name chains (w : World) :
  (∀ chain, chain ∈ chains → IsRevoked mgr clientCrt (last chain) = false) →
  verifyChains mgr clientCrt name chains w = (None, w).
Proof.
  induction chains as [|c rest IH]; intros Hall; [reflexivity|].
  simpl. rewrite (Hall c) by apply list_elem_of_here.
  apply IH. intros chain Hin. apply Hall. by apply list_elem_of_further.
Qed.

(** C1. With a revocation authority configured: a connection state with
    no verified chain fails with the chain-unverifiable error, and one
    with verified chains fails with the certificate-revoked error as soon
    as the presented leaf certificate is revoked under the trust anchor
    (last element) of any of the chains, whatever the other chains say.
    Without a revocation authority the verifier passes. *)
Theorem verifyTLSConnection_spec (certMgr : option CertManager) (state : ConnectionState)
    (w : World) :
  (certMgr = None → (verifyTLSConnection certMgr state w).1 = None) ∧
  (∀ mgr, certMgr = Some mgr → VerifiedChains state = [] →
     (verifyTLSConnection certMgr state w).1 = Some ErrChainUnverifiable) ∧
  (∀ mgr, certMgr = Some mgr → VerifiedChains state ≠ [] →
     (∃ chain, chain ∈ VerifiedChains state ∧
        IsRevoked mgr (head (PeerCertificates state)) (last chain) = true) →
     (verifyTLSConnection certMgr state w).1 = Some ErrCrtRevoked).
Proof.
  split; [|split].
  - intros ->. reflexivity.
  - intros mgr -> Hnil. unfold verifyTLSConnection. rewrite Hnil. reflexivity.
  - intros mgr -> Hne Hex. unfold verifyTLSConnection.
    rewrite bool_decide_eq_false_2; [by apply verifyChains_revoked|].
    destruct (VerifiedChains state); [done|discriminate].
Qed.

Lemma verifyTLSConnection_spec_witness :
  (verifyTLSConnection (Some demo_mgr) two_chains world0).1 = Some ErrCrtRevoked
  ∧ IsRevoked demo_mgr (Some leaf7) (last [leaf7; root_ca]) = false.
Proof.
  split; [|reflexivity].
  apply (proj2 (proj2 (verifyTLSConnection_spec (Some demo_mgr) two_chains world0)) demo_mgr);
    [reflexivity|discriminate|].
  exists [leaf7; acme_ca]. split; [|reflexivity].
  apply list_elem_of_further, list_elem_of_here.
Defined.

(** ** Authenticator *)

Section AuthProps.
Context `{Collaborators}.

Lemma updateLoginMetrics_run (user : User) ip (e : error) (w : World) :
  updateLoginMetrics user ip (Some e) w =
    (tt, {| cache := cache w; clock := clock w; next_ls := next_ls w;
            trace := EvExecutePostLoginHook user LoginMethodPassword ip ProtocolWebDAV (Some e)
                     :: EvAddLoginResult LoginMethodPassword (Some e)
                     :: EvAddDefenderEvent ip (match e with
                                               | RecordNotFoundError _ => HostEventUserNotFound
                                               | _ => HostEventLoginFailed
                                               end)
                     :: EvConnectionFailedLog (Username user) ip LoginMethodPassword
                          ProtocolWebDAV e
                     :: EvAddLoginAttempt LoginMethodPassword :: trace w |}).
Proof. reflexivity. Qed.

Lemma updateLoginMetrics_run_ok (user : User) ip (w : World) :
  updateLoginMetrics user ip None w =
    (tt, {| cache := cache w; clock := clock w; next_ls := next_ls w;
            trace := EvExecutePostLoginHook user LoginMethodPassword ip ProtocolWebDAV None
                     :: EvAddLoginResult LoginMethodPassword None
                     :: EvAddLoginAttempt LoginMethodPassword :: trace w |}).
Proof. reflexivity. Qed.

(** Full verification asks the identity provider exactly once and never
    reports a cache hit. *)
Lemma fullVerification_asks s username password ip (w : World) :
  provider_calls (trace (fullVerification s username password ip w).2)
    = S (provider_calls (trace w))
  ∧ (fullVerification s username password ip w).1.1.1.2 = false.
Proof.
  unfold fullVerification. mrun.
  destruct (CheckUserAndPass _ username password ip ProtocolWebDAV) as [user [e|]].
  - rewrite updateLoginMetrics_run. simpl. done.
  - unfold NewMemLS. destruct (negb (password =? "")); [|simpl; done].
    destruct (0 <? ExpirationTime s)%Z;
      (destruct (negb (FsProvider user =? SFTPFilesystemProvider)%Z);
       [destruct (GetFilesystem _ user "temp")|]); simpl; done.
Qed.

(** Full verification with an empty password that succeeds: the lock
    system is the next one allocated, the cache is the one it started
    from, and the provider call and the allocation are the only calls. *)
Lemma fullVerification_empty_password s username ip (w : World) user cached ls w' :
  fullVerification s username "" ip w = ((user, cached, ls, None), w') →
  cached = false ∧ ls = Some (next_ls w) ∧
  w' = {| cache := cache w; clock := clock w; next_ls := S (next_ls w);
          trace := EvNewMemLS (next_ls w)
                   :: EvCheckUserAndPass username "" ip ProtocolWebDAV :: trace w |}.
Proof.
  unfold fullVerification. mrun.
  destruct (CheckUserAndPass _ username "" ip ProtocolWebDAV) as [u [e|]].
  - rewrite updateLoginMetrics_run. intros [=].
  - unfold NewMemLS. simpl. intros [= <- <- <- <-]. done.
Qed.

Lemma authenticate_lookup_expired s r ip (w : World) username password cu :
  BasicAuth r = Some (username, password) →
  cache w !! username = Some cu →
  (IsExpired cu w).1 = true →
  authenticate s r ip w =
    fullVerification s username password ip
      {| cache := delete username (cache w); clock := clock w; next_ls := next_ls w;
         trace := trace w |}.
Proof.
  intros Hauth Hget Hexp. unfold authenticate. rewrite Hauth.
  unfold GetCachedWebDAVUser, RemoveCachedWebDAVUser. mrun. rewrite Hget.
  unfold IsExpired in *. mrun. simpl in Hexp. rewrite Hexp. reflexivity.
Qed.

Lemma authenticate_lookup_miss s r ip (w : World) username password :
  BasicAuth r = Some (username, password) →
  cache w !! username = None →
  authenticate s r ip w = fullVerification s username password ip w.
Proof.
  intros Hauth Hget. unfold authenticate. rewrite Hauth.
  unfold GetCachedWebDAVUser. mrun. rewrite Hget. reflexivity.
Qed.

(** C2. A cached credential whose expiration is set and not strictly in
    the future is not returned: [authenticate] removes the entry and goes
    on exactly as on a cache miss, from the cache without that entry, with
    one full verification by the identity provider; the result is not
    flagged as a cache hit. *)
Theorem authenticate_expired_entry s r ip (w : World) username password cu t :
  BasicAuth r = Some (username, password) →
  cache w !! username = Some cu →
  cu_Expiration cu = Some t →
  (t <= clock w)%Z →
  let purged := {| cache := delete username (cache w); clock := clock w;
                   next_ls := next_ls w; trace := trace w |} in
  cache purged !! username = None
  ∧ authenticate s r ip w = fullVerification s username password ip purged
  ∧ (authenticate s r ip w).1.1.1.2 = false
  ∧ provider_calls (trace (authenticate s r ip w).2) = S (provider_calls (trace w)).
Proof.
  intros Hauth Hget Hexp Hle purged.
  assert (Hstale : (IsExpired cu w).1 = true).
  { unfold IsExpired. mrun. simpl. rewrite Hexp.
    apply negb_true_iff, Z.ltb_ge, Hle. }
  rewrite (authenticate_lookup_expired s r ip w username password cu Hauth Hget Hstale).
  fold purged.
  destruct (fullVerification_asks s username password ip purged) as [Hcalls Hflag].
  split; [apply lookup_delete_eq|]. split; [reflexivity|]. split; [exact Hflag|exact Hcalls].
Qed.

Lemma authenticate_lookup_mismatch s r ip (w : World) username password cu :
  BasicAuth r = Some (username, password) →
  cache w !! username = Some cu →
  (IsExpired cu w).1 = false →
  password = "" ∨ cu_Password cu ≠ password →
  authenticate s r ip w =
    (updateLoginMetrics (cu_User cu) ip (Some ErrInvalidCredentials) ;;
     mret (zeroUser, false, None, Some ErrInvalidCredentials)) w.
Proof.
  intros Hauth Hget Hexp Hpw.
  assert (Hno : negb (password =? "") && (cu_Password cu =? password) = false).
  { destruct Hpw as [->|Hne]; [reflexivity|].
    apply andb_false_iff. right. by apply String.eqb_neq. }
  unfold authenticate. rewrite Hauth. unfold GetCachedWebDAVUser. mrun. rewrite Hget.
  unfold IsExpired in *. mrun. simpl in Hexp. rewrite Hexp, Hno. reflexivity.
Qed.

(** C3. On a hit of a cache entry that is not expired, a supplied password
    that is empty or differs from the cached one fails with the
    invalid-credentials error; the failure is reported once, the cache is
    left as it was and the identity provider is not asked. *)
Theorem authenticate_cached_mismatch s r ip (w : World) username password cu :
  BasicAuth r = Some (username, password) →
  cache w !! username = Some cu →
  (IsExpired cu w).1 = false →
  password = "" ∨ cu_Password cu ≠ password →
  authenticate s r ip w =
    ((zeroUser, false, None, Some ErrInvalidCredentials),
     {| cache := cache w; clock := clock w; next_ls := next_ls w;
        trace := EvExecutePostLoginHook (cu_User cu) LoginMethodPassword ip ProtocolWebDAV
                   (Some ErrInvalidCredentials)
                 :: EvAddLoginResult LoginMethodPassword (Some ErrInvalidCredentials)
                 :: EvAddDefenderEvent ip HostEventLoginFailed
                 :: EvConnectionFailedLog (Username (cu_User cu)) ip LoginMethodPassword
                      ProtocolWebDAV ErrInvalidCredentials
                 :: EvAddLoginAttempt LoginMethodPassword :: trace w |})
  ∧ provider_calls (trace (authenticate s r ip w).2) = provider_calls (trace w).
Proof.
  intros Hauth Hget Hexp Hpw.
  rewrite (authenticate_lookup_mismatch s r ip w username password cu Hauth Hget Hexp Hpw).
  split; reflexivity.
Qed.

(** A successful login with an empty password is a full verification,
    started in the world the cache lookup left. *)
Lemma authenticate_empty_password_success s r ip (w : World) username user cached ls w' :
  BasicAuth r = Some (username, "") →
  authenticate s r ip w = ((user, cached, ls, None), w') →
  let w0 := {| cache := cache_after_lookup username w; clock := clock w;
               next_ls := next_ls w; trace := trace w |} in
  fullVerification s username "" ip w0 = ((user, cached, ls, None), w')
  ∧ cached = false ∧ ls = Some (next_ls w) ∧ next_ls w' = S (next_ls w)
  ∧ cache w' = cache w0
  ∧ trace w' = EvNewMemLS (next_ls w)
               :: EvCheckUserAndPass username "" ip ProtocolWebDAV :: trace w.
Proof.
  intros Hauth Hrun w0.
  assert (Hfull : fullVerification s username "" ip w0 = ((user, cached, ls, None), w')).
  { subst w0. unfold cache_after_lookup.
    destruct (cache w !! username) as [cu|] eqn:Hget.
    - destruct (IsExpired cu w).1 eqn:Hexp.
      + by rewrite <- (authenticate_lookup_expired s r ip w username "" cu Hauth Hget Hexp).
      + rewrite (authenticate_lookup_mismatch s r ip w username "" cu Hauth Hget Hexp) in Hrun
          by (by left).
        discriminate.
    - rewrite (authenticate_lookup_miss s r ip w username "" Hauth Hget) in Hrun.
      by destruct w. }
  split; [exact Hfull|].
  apply fullVerification_empty_password in Hfull as (-> & -> & ->). done.
Qed.

Lemma cache_after_lookup_sub username (w : World) k c :
  cache_after_lookup username w !! k = Some c → cache w !! k = Some c.
Proof.
  unfold cache_after_lookup. destruct (cache w !! username) as [cu|]; [|done].
  destruct (IsExpired cu w).1; [|done].
  intros Hk. by apply lookup_delete_Some in Hk as [_ Hk].
Qed.

(** C10. A login with an empty password that succeeds is a full
    verification by the identity provider, never a cache hit: it is the
    run of lines 221-247 from the world [w0] that the cache lookup left
    (the input world, less an expired entry of that username).  That run
    leaves the credential cache unchanged, so no entry is inserted: every
    entry in the final cache was in the cache before the call.  It makes
    no call besides the provider's verification and the allocation of the
    lock system: no filesystem is opened and no root path is checked.  The
    lock system it returns is newly allocated, so any later successful
    login with an empty password returns another one. *)
Theorem authenticate_empty_password_fresh s r ip (w : World) username user cached ls w' :
  BasicAuth r = Some (username, "") →
  authenticate s r ip w = ((user, cached, ls, None), w') →
  let w0 := {| cache := cache_after_lookup username w; clock := clock w;
               next_ls := next_ls w; trace := trace w |} in
  (cached = false
   ∧ fullVerification s username "" ip w0 = ((user, cached, ls, None), w')
   ∧ provider_calls (trace w') = S (provider_calls (trace w)))
  ∧ (cache w' = cache w0
     ∧ (∀ k c, cache w' !! k = Some c → cache w !! k = Some c)
     ∧ (cache w !! username = None → cache w' = cache w))
  ∧ trace w' = EvNewMemLS (next_ls w)
               :: EvCheckUserAndPass username "" ip ProtocolWebDAV :: trace w
  ∧ (ls = Some (next_ls w) ∧ next_ls w' = S (next_ls w))
  ∧ (∀ r2 ip2 (w2 : World) username2 user2 cached2 ls2 w2',
       BasicAuth r2 = Some (username2, "") →
       (next_ls w' ≤ next_ls w2)%nat →
       authenticate s r2 ip2 w2 = ((user2, cached2, ls2, None), w2') →
       ls2 ≠ ls).
Proof.
  intros Hauth Hrun w0.
  destruct (authenticate_empty_password_success s r ip w username user cached ls w' Hauth Hrun)
    as (Hfull & Hc & Hls & Hnext & Hcache & Htrace).
  fold w0 in Hfull, Hcache.
  repeat split; try done.
  - rewrite Htrace. reflexivity.
  - intros k c. rewrite Hcache. apply cache_after_lookup_sub.
  - intros Hnone. rewrite Hcache. simpl. unfold cache_after_lookup. by rewrite Hnone.
  - intros r2 ip2 w2 username2 user2 cached2 ls2 w2' Hauth2 Hle Hrun2.
    destruct (authenticate_empty_password_success s r2 ip2 w2 username2 user2 cached2 ls2 w2'
                Hauth2 Hrun2) as (_ & _ & Hls2 & _).
    rewrite Hls, Hls2. intros [= Heq]. lia.
Qed.

End AuthProps.

Lemma authenticate_expired_entry_witness :
  cache {| cache := delete "alice" (cache world_stale); clock := 1000; next_ls := 1;
           trace := [] |} !! "alice" = None
  ∧ authenticate (H := demo plain) server0 req_secret "10.0.0.1" world_stale
    = fullVerification (H := demo plain) server0 "alice" "secret" "10.0.0.1"
        {| cache := delete "alice" (cache world_stale); clock := 1000; next_ls := 1;
           trace := [] |}
  ∧ (authenticate (H := demo plain) server0 req_secret "10.0.0.1" world_stale).1.1.1.2 = false
  ∧ provider_calls
      (trace (authenticate (H := demo plain) server0 req_secret "10.0.0.1" world_stale).2)
    = 1%nat.
Proof.
  apply (authenticate_expired_entry (H := demo plain) server0 req_secret "10.0.0.1"
           world_stale "alice" "secret" stale_entry 500).
  - vm_compute. reflexivity.
  - vm_compute. reflexivity.
  - reflexivity.
  - simpl. lia.
Defined.

Lemma authenticate_cached_mismatch_witness :
  provider_calls
    (trace (authenticate (H := demo plain) server0 req_wrong "10.0.0.1" world_live).2)
  = provider_calls (trace world_live)
  ∧ provider_calls
      (trace (authenticate (H := demo plain) server0 req_empty "10.0.0.1" world_live).2)
    = provider_calls (trace world_live).
Proof.
  assert (Hget : cache world_live !! "alice" = Some live_entry) by (vm_compute; reflexivity).
  assert (Hlive : (IsExpired live_entry world_live).1 = false) by reflexivity.
  split.
  - apply (authenticate_cached_mismatch (H := demo plain) server0 req_wrong "10.0.0.1"
             world_live "alice" "wrong" live_entry).
    + vm_compute. reflexivity.
    + exact Hget.
    + exact Hlive.
    + right. discriminate.
  - apply (authenticate_cached_mismatch (H := demo plain) server0 req_empty "10.0.0.1"
             world_live "alice" "" live_entry).
    + vm_compute. reflexivity.
    + exact Hget.
    + exact Hlive.
    + left. reflexivity.
Defined.

(** ** Identity-level admission *)

Lemma string_length_app (a b : string) :
  String.length (a +:+ b) = (String.length a + String.length b)%nat.
Proof. induction a as [|c a IH]; simpl; [reflexivity|by rewrite IH]. Qed.

Section ValidateProps.
Context `{Collaborators}.

(** C5. [validateUser] rejects with the first failing check of the
    sequence: home directory not absolute, protocol denied, password
    login not allowed, session ceiling reached (only for a ceiling above
    zero, with the observed count in the error), overlapping mapped paths
    under quota tracking, source address not allowed.  The checks
    short-circuit: the connection registry is asked for the session count
    only when the first three checks pass and the ceiling is above zero,
    quota tracking only when the first four pass.  In particular a
    relative home directory is rejected without any session query. *)
Theorem validateUser_first_failure (user : User) (r : Request) (w : World) :
  let w1 := after EvXidNew w in
  let wa := after (EvGetActiveSessions (Username user)) w1 in
  let wq := after EvGetQuotaTracking (if (0 <? MaxSessions user)%Z then wa else w1) in
  let activeSessions := GetActiveSessions wa (Username user) in
  let checks := identity_checks user r activeSessions (GetQuotaTracking wq) in
  let w' := (validateUser user r w).2 in
  (validateUser user r w).1.2 = first_failure checks
  ∧ session_queries (trace w') =
      (session_queries (trace w) +
       match first_failure (take 3 checks) with
       | Some _ => 0
       | None => if (0 <? MaxSessions user)%Z then 1 else 0
       end)%nat
  ∧ quota_queries (trace w') =
      (quota_queries (trace w) +
       match first_failure (take 4 checks) with Some _ => 0 | None => 1 end)%nat
  ∧ (filepath_IsAbs (HomeDir user) = false →
     (validateUser user r w).1.2 = Some (ErrInvalidHomeDir (HomeDir user))
     ∧ session_queries (trace w') = session_queries (trace w)).
Proof.
  unfold validateUser, identity_checks, after. mrun. simpl.
  destruct (filepath_IsAbs (HomeDir user)); simpl.
  2:{ repeat split; try reflexivity; lia. }
  destruct (IsStringInSlice ProtocolWebDAV (DeniedProtocols user)); simpl.
  { repeat split; try done; lia. }
  destruct (IsLoginMethodAllowed user LoginMethodPassword); simpl.
  2:{ repeat split; try done; lia. }
  destruct (0 <? MaxSessions user)%Z; simpl.
  - destruct (MaxSessions user <=? GetActiveSessions _ (Username user))%Z; simpl.
    { repeat split; try done; lia. }
    destruct (0 <? GetQuotaTracking _)%Z; simpl;
      [destruct (HasOverlappedMappedPaths user); simpl|];
      try (destruct (IsLoginFromAddrAllowed user (RemoteAddr r)); simpl);
      repeat split; try done; lia.
  - destruct (0 <? GetQuotaTracking _)%Z; simpl;
      [destruct (HasOverlappedMappedPaths user); simpl|];
      try (destruct (IsLoginFromAddrAllowed user (RemoteAddr r)); simpl);
      repeat split; try done; lia.
Qed.


(** C9, as amended.  On success and on every rejection alike,
    [validateUser] returns the random unique token itself; the protocol
    tag and the separator are not part of the identifier it returns. *)
Theorem validateUser_returns_token (user : User) (r : Request) (w : World) :
  (validateUser user r w).1.1 = xid_New (after EvXidNew w)
  ∧ (validateUser user r w).1.1 ≠ generated_format (xid_New (after EvXidNew w)).
Proof.
  assert (Hid : (validateUser user r w).1.1 = xid_New (after EvXidNew w)).
  { unfold validateUser, after. mrun. simpl.
    destruct (filepath_IsAbs (HomeDir user)); simpl; [|done].
    destruct (IsStringInSlice ProtocolWebDAV (DeniedProtocols user)); simpl; [done|].
    destruct (IsLoginMethodAllowed user LoginMethodPassword); simpl; [|done].
    destruct (0 <? MaxSessions user)%Z; simpl;
      [destruct (MaxSessions user <=? GetActiveSessions _ (Username user))%Z; simpl; [done|]|];
      (destruct (0 <? GetQuotaTracking _)%Z; simpl;
       [destruct (HasOverlappedMappedPaths user); simpl|];
       try (destruct (IsLoginFromAddrAllowed user (RemoteAddr r)); simpl); done). }
  split; [exact Hid|]. rewrite Hid. unfold generated_format.
  intros Heq. apply (f_equal String.length) in Heq.
  rewrite !string_length_app in Heq. simpl in Heq. lia.
Qed.

End ValidateProps.

Lemma validateUser_first_failure_witness :
  (validateUser (H := demo crowded) bob_limited req_secret world0).1.2
    = Some (ErrInvalidHomeDir "relative/path")
  ∧ session_queries (trace (validateUser (H := demo crowded) bob_limited req_secret world0).2)
    = session_queries (trace world0).
Proof.
  apply (proj2 (proj2 (proj2
           (validateUser_first_failure (H := demo crowded) bob_limited req_secret world0)))).
  reflexivity.
Defined.

(** C9, the claim as stated fails: for alice (admitted) and for bob
    (rejected) the identifier returned is the bare token, which is not of
    the form protocol tag, separator, token. *)
Lemma validateUser_id_lacks_protocol_tag :
  (validateUser (H := demo plain) alice req_secret world0).1
    = ("c5h2f1o6n88dkq2a0v0g", None)
  ∧ (validateUser (H := demo plain) bob req_secret world0).1
    = ("c5h2f1o6n88dkq2a0v0g", Some (ErrInvalidHomeDir "relative/path"))
  ∧ ¬ ∃ token, "c5h2f1o6n88dkq2a0v0g" = generated_format (H := demo plain) token.
Proof.
  split; [reflexivity|]. split; [reflexivity|].
  intros [token Heq]. discriminate Heq.
Qed.

(** ** Request preprocessor *)

Section PreprocessorProps.
Context `{Collaborators}.

Lemma checkRequestMethod_run ctx (r : Request) conn (w : World) :
  let p := path_Clean (URL_Path r) in
  let isdir := match Connection_Stat (after (EvStat p) w) conn ctx p with
               | inl info => IsDir info
               | inr _ => false
               end in
  checkRequestMethod ctx r conn w =
    if (Method r =? MethodGet) || (Method r =? MethodHead) then
      (if isdir then
         if Method r =? MethodHead then (true, r)
         else if Header_Get (Header r) "Depth" =? "" then
                (false, set_Header (Header_Add (Header r) "Depth" "1") (set_Method "PROPFIND" r))
              else (false, set_Method "PROPFIND" r)
       else (false, r),
       after (EvStat p) w)
    else ((false, r), w).
Proof.
  unfold checkRequestMethod, after. mrun. simpl.
  destruct ((Method r =? MethodGet) || (Method r =? MethodHead)); [|reflexivity].
  destruct (Connection_Stat _ conn ctx (path_Clean (URL_Path r))) as [[[]]|]; try reflexivity.
  destruct (Method r =? MethodHead); [reflexivity|].
  destruct (Header_Get (Header r) "Depth" =? ""); reflexivity.
Qed.

Lemma ServeHTTP_dispatch_handled ctx rw (r : Request) conn ls (w : World) r1 w1 :
  checkRequestMethod ctx r conn w = ((true, r1), w1) →
  ServeHTTP_dispatch ctx rw r conn ls w =
    ((r1, Write (BodyBytes "")
            (WriteHeader StatusMultiStatus
               (rw_Header_Set "Content-Type" "text/xml; charset=utf-8" rw))),
     after (EvConnectionsRemove (BaseConnection_GetID (set_request r1 conn))) w1).
Proof. intros E. unfold ServeHTTP_dispatch, after. mrun. rewrite E. reflexivity. Qed.

(** X17. The request preprocessor, the blank Depth header left aside.
    [checkRequestMethod] returns true exactly when the method is HEAD and
    the cleaned path stats as a directory; the request is then left as it
    was and [ServeHTTP] answers 207 with an empty body and the XML content
    type, without calling the downstream handler.  A GET on a directory
    becomes a PROPFIND and the flag is false; a request that carries no
    Depth header gets the Depth header 1, and a Depth header that reads as
    not empty is left untouched.  In all other cases (other methods, stat
    failure, not a directory) the flag is false and the request is
    unchanged. *)
Theorem checkRequestMethod_spec ctx (r : Request) conn (w : World) :
  let p := path_Clean (URL_Path r) in
  let isdir := match Connection_Stat (after (EvStat p) w) conn ctx p with
               | inl info => IsDir info
               | inr _ => false
               end in
  let handled := (checkRequestMethod ctx r conn w).1.1 in
  let r' := (checkRequestMethod ctx r conn w).1.2 in
  (handled = true ↔ Method r = MethodHead ∧ isdir = true)
  ∧ (handled = true →
     r' = r
     ∧ ∀ rw ls,
         let out := ServeHTTP_dispatch ctx rw r conn ls w in
         out.1.1 = r
         ∧ out.1.2 = Write (BodyBytes "")
                       (WriteHeader StatusMultiStatus
                          (rw_Header_Set "Content-Type" "text/xml; charset=utf-8" rw))
         ∧ (rw_status rw = None → rw_status out.1.2 = Some 207%Z)
         ∧ rw_body out.1.2 = (rw_body rw ++ [BodyBytes ""])%list
         ∧ handler_calls (trace out.2) = handler_calls (trace w))
  ∧ (Method r = MethodGet → isdir = true →
     handled = false
     ∧ Method r' = "PROPFIND" ∧ URL_Path r' = URL_Path r ∧ RemoteAddr r' = RemoteAddr r
     ∧ (Header r !! CanonicalHeaderKey "Depth" = None →
        Header r' = <[CanonicalHeaderKey "Depth" := ["1"]]> (Header r))
     ∧ (Header_Get (Header r) "Depth" ≠ "" → Header r' = Header r))
  ∧ (¬ ((Method r = MethodGet ∨ Method r = MethodHead) ∧ isdir = true) →
     handled = false ∧ r' = r).
Proof.
  intros p isdir handled r'.
  pose proof (checkRequestMethod_run ctx r conn w) as Hrun. cbv zeta in Hrun.
  fold p in Hrun. fold isdir in Hrun.
  subst handled r'. clearbody isdir. revert Hrun.
  destruct (String.eqb_spec (Method r) MethodHead) as [Hh|Hh];
    destruct (String.eqb_spec (Method r) MethodGet) as [Hg|Hg];
    try (rewrite Hh in Hg; discriminate Hg);
    destruct isdir; simpl;
    try (destruct (String.eqb_spec (Header_Get (Header r) "Depth") "") as [Hd|Hd]; simpl);
    intros Hrun; rewrite Hrun; simpl;
    repeat split; try done; try tauto; try (intros; exfalso; tauto);
    try (by (intros Habsent; unfold Header_Add; rewrite Habsent));
    try (by (intros Habsent; exfalso; apply Hd; unfold Header_Get; rewrite Habsent)).
  all: rewrite (ServeHTTP_dispatch_handled ctx rw r conn ls w _ _ Hrun); simpl; try done.
  all: intros Hnone; by rewrite Hnone.
Qed.

End PreprocessorProps.

Lemma checkRequestMethod_spec_witness :
  (checkRequestMethod (H := demo plain) ctx0 req_head (connection_of req_head) world0).1
    = (true, req_head)
  ∧ rw_status (ServeHTTP_dispatch (H := demo plain) ctx0 rw0 req_head
                 (connection_of req_head) None world0).1.2 = Some 207%Z
  ∧ rw_body (ServeHTTP_dispatch (H := demo plain) ctx0 rw0 req_head
               (connection_of req_head) None world0).1.2 = [BodyBytes ""].
Proof.
  destruct (checkRequestMethod_spec (H := demo plain) ctx0 req_head
              (connection_of req_head) world0) as (Hiff & Hhead & _).
  assert (Ht : (checkRequestMethod (H := demo plain) ctx0 req_head
                  (connection_of req_head) world0).1.1 = true).
  { apply Hiff. split; reflexivity. }
  destruct (Hhead Ht) as [Hr Hout].
  destruct (Hout rw0 None) as (_ & _ & Hstatus & Hbody & _).
  split; [|split].
  - apply injective_projections; [exact Ht|exact Hr].
  - apply Hstatus. reflexivity.
  - exact Hbody.
Defined.

(** C6, the code at the failing input.  The claim has 1 added to the
    Depth header only when no Depth header is present, and an existing
    one left untouched.  For a GET on a directory whose Depth header is
    present with an empty value the code rewrites the method to PROPFIND,
    returns false and appends 1 to the existing header, which holds two
    values afterwards and still reads as empty: the header is neither left
    untouched nor does it read 1. *)
Lemma checkRequestMethod_blank_depth :
  let out := checkRequestMethod (H := demo plain) ctx0 req_blank_depth
               (connection_of req_blank_depth) world0 in
  Header req_blank_depth !! "Depth" = Some [""]
  ∧ out.1.1 = false
  ∧ Method out.1.2 = "PROPFIND"
  ∧ Header out.1.2 !! "Depth" = Some [""; "1"]
  ∧ Header_Get (H := demo plain) (Header out.1.2) "Depth" = ""
  ∧ Header out.1.2 ≠ Header req_blank_depth.
Proof.
  cbv zeta.
  split; [reflexivity|]. do 4 (split; [vm_compute; reflexivity|]).
  intros Heq. apply (f_equal (fun h => h !! "Depth")) in Heq.
  vm_compute in Heq. discriminate Heq.
Qed.

(** ** Connection-level admission and proxy address resolution *)

Section ServeProps.
Context `{Collaborators}.

(** [ServeHTTP] up to the hand-over to [ServeHTTP_login], call by call. *)
Lemma ServeHTTP_run s rw (r : Request) (w : World) :
  let w1 := after EvIsNewConnectionAllowed w in
  let r1 := checkRemoteAddress r in
  let ip := GetIPFromRemoteAddress (RemoteAddr r1) in
  let w2 := after (EvIsBanned ip) w1 in
  let w3 := after (EvExecutePostConnectHook ip ProtocolWebDAV) w2 in
  ServeHTTP s rw r w =
    if negb (IsNewConnectionAllowed w1) then
      ((r, http_Error ErrConnectionDenied StatusServiceUnavailable rw),
       after (EvLog LevelDebug "" "connection refused, configured limit reached" []) w1)
    else if IsBanned w2 ip then
      ((r1, http_Error ErrConnectionDenied StatusForbidden rw), w2)
    else match ExecutePostConnectHook w3 ip ProtocolWebDAV with
         | Some _ => ((r1, http_Error ErrConnectionDenied StatusForbidden rw), w3)
         | None => ServeHTTP_login s rw r1 ip w3
         end.
Proof.
  unfold ServeHTTP, after. mrun. simpl.
  destruct (IsNewConnectionAllowed _); simpl; [|reflexivity].
  destruct (IsBanned _ _); simpl; [reflexivity|].
  destruct (ExecutePostConnectHook _ _ _); reflexivity.
Qed.

(** C4. The connection-level checks run in the order global ceiling
    (503), ban list (403), post-connect hook (403), and the first failure
    ends the request: the trace holds the calls made up to the failing
    check and nothing else.  When the ceiling is reached neither the ban
    list nor the hook nor the identity provider is asked, the cache and
    the lock systems are untouched and nothing is reported; the
    authenticator ([ServeHTTP_login]) runs only when the three checks
    pass. *)
Theorem ServeHTTP_connection_checks s rw (r : Request) (w : World) :
  let w1 := after EvIsNewConnectionAllowed w in
  let r1 := checkRemoteAddress r in
  let ip := GetIPFromRemoteAddress (RemoteAddr r1) in
  let w2 := after (EvIsBanned ip) w1 in
  let w3 := after (EvExecutePostConnectHook ip ProtocolWebDAV) w2 in
  let out := ServeHTTP s rw r w in
  (IsNewConnectionAllowed w1 = false →
     out.1.2 = http_Error ErrConnectionDenied StatusServiceUnavailable rw
     ∧ (rw_status rw = None → rw_status out.1.2 = Some 503%Z)
     ∧ trace out.2 = EvLog LevelDebug "" "connection refused, configured limit reached" []
                     :: EvIsNewConnectionAllowed :: trace w
     ∧ cache out.2 = cache w ∧ next_ls out.2 = next_ls w
     ∧ provider_calls (trace out.2) = provider_calls (trace w)
     ∧ reports (trace out.2) = reports (trace w))
  ∧ (IsNewConnectionAllowed w1 = true → IsBanned w2 ip = true →
     out.1.2 = http_Error ErrConnectionDenied StatusForbidden rw
     ∧ (rw_status rw = None → rw_status out.1.2 = Some 403%Z)
     ∧ trace out.2 = EvIsBanned ip :: EvIsNewConnectionAllowed :: trace w
     ∧ cache out.2 = cache w ∧ next_ls out.2 = next_ls w)
  ∧ (IsNewConnectionAllowed w1 = true → IsBanned w2 ip = false →
     is_Some (ExecutePostConnectHook w3 ip ProtocolWebDAV) →
     out.1.2 = http_Error ErrConnectionDenied StatusForbidden rw
     ∧ (rw_status rw = None → rw_status out.1.2 = Some 403%Z)
     ∧ trace out.2 = EvExecutePostConnectHook ip ProtocolWebDAV :: EvIsBanned ip
                     :: EvIsNewConnectionAllowed :: trace w
     ∧ cache out.2 = cache w ∧ next_ls out.2 = next_ls w)
  ∧ (IsNewConnectionAllowed w1 = true → IsBanned w2 ip = false →
     ExecutePostConnectHook w3 ip ProtocolWebDAV = None →
     out = ServeHTTP_login s rw r1 ip w3
     ∧ trace w3 = EvExecutePostConnectHook ip ProtocolWebDAV :: EvIsBanned ip
                  :: EvIsNewConnectionAllowed :: trace w).
Proof.
  intros w1 r1 ip w2 w3 out.
  pose proof (ServeHTTP_run s rw r w) as Hrun. cbv zeta in Hrun.
  fold w1 r1 ip w2 w3 out in Hrun.
  split; [|split; [|split]].
  - intros Hlimit. rewrite Hrun, Hlimit. simpl.
    repeat split; try reflexivity. intros Hnone. by rewrite Hnone.
  - intros Hallowed Hbanned. rewrite Hrun, Hallowed, Hbanned. simpl.
    repeat split; try reflexivity. intros Hnone. by rewrite Hnone.
  - intros Hallowed Hbanned [e Hhook]. rewrite Hrun, Hallowed, Hbanned, Hhook. simpl.
    repeat split; try reflexivity. intros Hnone. by rewrite Hnone.
  - intros Hallowed Hbanned Hhook. rewrite Hrun, Hallowed, Hbanned, Hhook. simpl.
    split; reflexivity.
Qed.

Lemma strings_Index_from_no_comma i (s : string) :
  no_comma s = true → strings_Index_from i s ", " = (-1)%Z.
Proof.
  revert i. induction s as [|c s IH]; intros i Hs; [reflexivity|].
  simpl in Hs. apply andb_true_iff in Hs as [Hc Hs].
  apply negb_true_iff, Ascii.eqb_neq in Hc.
  cbn [strings_Index_from String.prefix].
  destruct (ascii_dec "," c) as [<-|_]; [done|]. by apply IH.
Qed.

Lemma strings_Index_from_first i (first rest : string) :
  no_comma first = true →
  strings_Index_from i (first +:+ ", " +:+ rest) ", " = (i + Z.of_nat (String.length first))%Z.
Proof.
  revert i. induction first as [|c first IH]; intros i Hs.
  - simpl. destruct rest; simpl; lia.
  - simpl in Hs. apply andb_true_iff in Hs as [Hc Hs].
    apply negb_true_iff, Ascii.eqb_neq in Hc.
    change (String c first +:+ ", " +:+ rest) with (String c (first +:+ ", " +:+ rest)).
    cbn [strings_Index_from String.prefix].
    destruct (ascii_dec "," c) as [<-|_]; [done|].
    rewrite IH by done. cbn [String.length]. lia.
Qed.

Lemma slice_to_prefix (a b : string) :
  slice_to (a +:+ b) (Z.of_nat (String.length a)) = a.
Proof.
  unfold slice_to. rewrite Nat2Z.id.
  induction a as [|c a IH]; simpl.
  - by destruct b.
  - by rewrite IH.
Qed.

Lemma slice_to_all (a : string) : slice_to a (Z.of_nat (String.length a)) = a.
Proof.
  unfold slice_to. rewrite Nat2Z.id.
  induction a as [|c a IH]; simpl; [reflexivity|by rewrite IH].
Qed.

Lemma nonempty_length (a : string) : (0 <? String.length a)%nat = negb (a =? "").
Proof. by destruct a. Qed.

(** The candidate address taken from an X-Forwarded-For value: the whole
    value when it holds no comma, its first element when the elements are
    separated by a comma and a space. *)
Lemma forwarded_for_first (xff first rest : string) :
  no_comma first = true →
  xff = first ∨ xff = first +:+ ", " +:+ rest →
  slice_to xff (if (strings_Index xff ", " =? -1)%Z
                then Z.of_nat (String.length xff) else strings_Index xff ", ") = first.
Proof.
  intros Hfirst [->| ->]; unfold strings_Index.
  - rewrite strings_Index_from_no_comma by done. simpl. apply slice_to_all.
  - rewrite strings_Index_from_first by done.
    destruct (Z.eqb_spec (0 + Z.of_nat (String.length first)) (-1)) as [Hneg|_]; [lia|].
    rewrite Z.add_0_l. apply slice_to_prefix.
Qed.

(** C8, as amended.  With no proxy protocol configured, a non-empty
    X-Real-IP value replaces the remote address; failing that, the first
    value of an X-Forwarded-For list whose values are separated by a comma
    and a space (the whole value when it holds no comma), trimmed, replaces
    it when it is not empty; with a proxy protocol configured the request
    is left alone.  In [ServeHTTP] the global connection-limit check runs
    first, on the request as it came in; the replacement happens right
    after it and before the ban list, the post-connect hook and the login
    stage, which all get the replaced address. *)
Theorem checkRemoteAddress_spec s rw (r : Request) (w : World) :
  let xrip := Header_Get (Header r) xRealIP in
  let xff := Header_Get (Header r) xForwardedFor in
  let w1 := after EvIsNewConnectionAllowed w in
  let r1 := checkRemoteAddress r in
  let ip := GetIPFromRemoteAddress (RemoteAddr r1) in
  let w2 := after (EvIsBanned ip) w1 in
  let w3 := after (EvExecutePostConnectHook ip ProtocolWebDAV) w2 in
  (ProxyProtocol ≠ 0%Z → r1 = r)
  ∧ (ProxyProtocol = 0%Z → xrip ≠ "" → r1 = set_RemoteAddr xrip r)
  ∧ (ProxyProtocol = 0%Z → xrip = "" → xff ≠ "" →
     ∀ first rest, no_comma first = true → xff = first ∨ xff = first +:+ ", " +:+ rest →
       r1 = if strings_TrimSpace first =? "" then r
            else set_RemoteAddr (strings_TrimSpace first) r)
  ∧ (ProxyProtocol = 0%Z → xrip = "" → xff = "" → r1 = r)
  ∧ (IsNewConnectionAllowed w1 = false → (ServeHTTP s rw r w).1.1 = r)
  ∧ (IsNewConnectionAllowed w1 = true →
     ServeHTTP s rw r w =
       if IsBanned w2 ip then ((r1, http_Error ErrConnectionDenied StatusForbidden rw), w2)
       else match ExecutePostConnectHook w3 ip ProtocolWebDAV with
            | Some _ => ((r1, http_Error ErrConnectionDenied StatusForbidden rw), w3)
            | None => ServeHTTP_login s rw r1 ip w3
            end).
Proof.
  intros xrip xff w1 r1 ip w2 w3.
  split; [|split; [|split; [|split; [|split]]]].
  - intros Hproxy. subst r1. unfold checkRemoteAddress.
    destruct (Z.eqb_spec ProxyProtocol 0); [done|reflexivity].
  - intros Hproxy Hx. subst r1. unfold checkRemoteAddress. rewrite Hproxy. simpl.
    fold xrip. destruct (String.eqb_spec xrip ""); [done|]. simpl.
    rewrite nonempty_length. destruct (String.eqb_spec xrip ""); [done|reflexivity].
  - intros Hproxy Hx Hff first rest Hfirst Hshape. subst r1. unfold checkRemoteAddress.
    rewrite Hproxy. simpl. fold xrip xff. rewrite Hx. simpl.
    destruct (String.eqb_spec xff ""); [done|]. simpl.
    rewrite (forwarded_for_first xff first rest Hfirst Hshape), nonempty_length.
    by destruct (strings_TrimSpace first =? "").
  - intros Hproxy Hx Hff. subst r1. unfold checkRemoteAddress.
    rewrite Hproxy. simpl. fold xrip xff. rewrite Hx, Hff. reflexivity.
  - intros Hlimit. pose proof (ServeHTTP_run s rw r w) as Hrun. cbv zeta in Hrun.
    fold w1 in Hrun. rewrite Hrun, Hlimit. reflexivity.
  - intros Hallowed. pose proof (ServeHTTP_run s rw r w) as Hrun. cbv zeta in Hrun.
    fold w1 r1 ip w2 w3 in Hrun. rewrite Hrun, Hallowed. reflexivity.
Qed.

(** ** Outcome reporter *)

Lemma fullVerification_reports s username password ip (w : World) :
  reports (trace (fullVerification s username password ip w).2) =
    match (fullVerification s username password ip w).1.2 with
    | Some _ => once_more (reports (trace w))
    | None => reports (trace w)
    end.
Proof.
  unfold fullVerification. mrun.
  destruct (CheckUserAndPass _ username password ip ProtocolWebDAV) as [user [e|]].
  - reflexivity.
  - unfold NewMemLS. destruct (negb (password =? "")); [|reflexivity].
    destruct (0 <? ExpirationTime s)%Z;
      (destruct (negb (FsProvider user =? SFTPFilesystemProvider)%Z);
       [destruct (GetFilesystem _ user "temp")|]); reflexivity.
Qed.

Lemma authenticate_reports s (r : Request) ip (w : World) :
  is_Some (BasicAuth r) →
  reports (trace (authenticate s r ip w).2) =
    match (authenticate s r ip w).1.2 with
    | Some _ => once_more (reports (trace w))
    | None => reports (trace w)
    end.
Proof.
  intros [[username password] Hauth]. unfold authenticate. rewrite Hauth.
  unfold GetCachedWebDAVUser, RemoveCachedWebDAVUser, IsExpired. mrun.
  destruct (cache w !! username) as [cu|]; [|apply fullVerification_reports].
  simpl. destruct (cu_Expiration cu) as [t|]; simpl.
  - destruct (clock w <? t)%Z; simpl.
    + destruct (negb (password =? "") && (cu_Password cu =? password)); reflexivity.
    + apply (fullVerification_reports s username password ip
               {| cache := delete username (cache w); clock := clock w;
                  next_ls := next_ls w; trace := trace w |}).
  - destruct (negb (password =? "") && (cu_Password cu =? password)); reflexivity.
Qed.

Lemma validateUser_reports (user : User) (r : Request) (w : World) :
  reports (trace (validateUser user r w).2) = reports (trace w).
Proof.
  unfold validateUser. mrun. simpl.
  destruct (filepath_IsAbs (HomeDir user)); simpl; [|done].
  destruct (IsStringInSlice ProtocolWebDAV (DeniedProtocols user)); simpl; [done|].
  destruct (IsLoginMethodAllowed user LoginMethodPassword); simpl; [|done].
  destruct (0 <? MaxSessions user)%Z; simpl;
    [destruct (MaxSessions user <=? GetActiveSessions _ (Username user))%Z; simpl; [done|]|];
    (destruct (0 <? GetQuotaTracking _)%Z; simpl;
     [destruct (HasOverlappedMappedPaths user); simpl|];
     try (destruct (IsLoginFromAddrAllowed user (RemoteAddr r)); simpl); done).
Qed.

Lemma ServeHTTP_dispatch_reports ctx rw (r : Request) conn ls (w : World) :
  reports (trace (ServeHTTP_dispatch ctx rw r conn ls w).2) = reports (trace w).
Proof.
  unfold ServeHTTP_dispatch. mrun.
  pose proof (checkRequestMethod_run ctx r conn w) as Hrun. cbv zeta in Hrun.
  rewrite Hrun. unfold after, emit.
  destruct ((Method r =? MethodGet) || (Method r =? MethodHead)); [|reflexivity].
  destruct (Connection_Stat _ conn ctx (path_Clean (URL_Path r))) as [[[]]|]; simpl;
    try reflexivity.
  destruct (Method r =? MethodHead); [reflexivity|].
  destruct (Header_Get (Header r) "Depth" =? ""); reflexivity.
Qed.

(** C7, as amended.  A request with Basic-auth framing that reaches the
    authenticator has its outcome reported exactly once, whether it ends
    in an authentication failure, an admission rejection, a filesystem
    failure or a served request: each of the reporter's three
    unconditional calls is made once.  A request without valid Basic-auth
    framing is answered 401 with the challenge header and the reporter is
    not run: the world is left exactly as it was. *)
Theorem ServeHTTP_login_reports s rw (r : Request) ip (w : World) :
  (is_Some (BasicAuth r) →
   reports (trace (ServeHTTP_login s rw r ip w).2) = once_more (reports (trace w)))
  ∧ (BasicAuth r = None →
     ServeHTTP_login s rw r ip w =
       ((r, http_Error err401 StatusUnauthorized
              (rw_Header_Set "WWW-Authenticate" realm rw)), w)).
Proof.
  split.
  - intros Hauth. pose proof (authenticate_reports s r ip w Hauth) as Ha.
    unfold ServeHTTP_login. mrun.
    destruct (authenticate s r ip w) as [[[[user cached] ls] [e|]] wa]; simpl in Ha |- *;
      [exact Ha|].
    pose proof (validateUser_reports user r wa) as Hv.
    destruct (validateUser user r wa) as [[connectionID [e|]] wv]; simpl in Hv |- *.
    { unfold reports in *. simpl. congruence. }
    destruct (GetFilesystem _ user connectionID) as [fs|e]; simpl.
    + rewrite ServeHTTP_dispatch_reports. unfold reports in *. simpl. congruence.
    + unfold reports in *. simpl. congruence.
  - intros Hnone. unfold ServeHTTP_login, authenticate. rewrite Hnone. reflexivity.
Qed.

End ServeProps.

(** ** Worked examples *)

Lemma authenticate_empty_password_fresh_witness :
  cache world_open1 = cache world0
  ∧ Some 1%nat ≠ Some 0%nat.
Proof.
  assert (Hauth : BasicAuth (Collaborators := demo open_door) req_empty = Some ("alice", ""))
    by (vm_compute; reflexivity).
  assert (Hrun1 : authenticate (H := demo open_door) server0 req_empty "10.0.0.1" world0
                  = ((alice, false, Some 0%nat, None), world_open1))
    by (vm_compute; reflexivity).
  assert (Hrun2 : authenticate (H := demo open_door) server0 req_empty "10.0.0.1" world_open1
                  = ((alice, false, Some 1%nat, None), world_open2))
    by (vm_compute; reflexivity).
  destruct (authenticate_empty_password_fresh (H := demo open_door) server0 req_empty
              "10.0.0.1" world0 "alice" alice false (Some 0%nat) world_open1 Hauth Hrun1)
    as (_ & (_ & _ & Hcache) & _ & _ & Hdistinct).
  split; [apply Hcache; vm_compute; reflexivity|].
  exact (Hdistinct req_empty "10.0.0.1" world_open1 "alice" alice false (Some 1%nat)
           world_open2 Hauth (le_n _) Hrun2).
Defined.

Lemma ServeHTTP_connection_checks_witness :
  trace (ServeHTTP (H := demo full_house) server0 rw0 req_secret world0).2
    = EvLog LevelDebug "" "connection refused, configured limit reached" []
      :: EvIsNewConnectionAllowed :: trace world0
  ∧ provider_calls (trace (ServeHTTP (H := demo full_house) server0 rw0 req_secret world0).2)
    = provider_calls (trace world0).
Proof.
  destruct (proj1 (ServeHTTP_connection_checks (H := demo full_house) server0 rw0 req_secret
                     world0) eq_refl)
    as (_ & _ & Htrace & _ & _ & Hcalls & _).
  split; [exact Htrace|exact Hcalls].
Defined.

Lemma checkRemoteAddress_spec_witness :
  checkRemoteAddress (H := demo plain) req_forwarded
    = (if strings_TrimSpace (Collaborators := demo plain) "203.0.113.9" =? ""
       then req_forwarded
       else set_RemoteAddr (strings_TrimSpace (Collaborators := demo plain) "203.0.113.9")
              req_forwarded).
Proof.
  assert (Hx : Header_Get (H := demo plain) (Header req_forwarded) (xRealIP (H := demo plain))
               = "") by (vm_compute; reflexivity).
  assert (Hff : Header_Get (H := demo plain) (Header req_forwarded)
                  (xForwardedFor (H := demo plain)) ≠ "")
    by (vm_compute; discriminate).
  assert (Hshape : Header_Get (H := demo plain) (Header req_forwarded)
                     (xForwardedFor (H := demo plain)) = "203.0.113.9"
                   ∨ Header_Get (H := demo plain) (Header req_forwarded)
                       (xForwardedFor (H := demo plain))
                     = "203.0.113.9" +:+ ", " +:+ "10.1.1.1")
    by (right; vm_compute; reflexivity).
  exact (proj1 (proj2 (proj2 (checkRemoteAddress_spec (H := demo plain) server0 rw0
                                req_forwarded world0)))
           eq_refl Hx Hff "203.0.113.9" "10.1.1.1" eq_refl Hshape).
Defined.

(** C8, the claim as stated fails: when the connection limit is reached
    the limit check has run and the request still carries the observed
    remote address, not the X-Real-IP value that would replace it. *)
Lemma ServeHTTP_limit_check_before_replacement :
  RemoteAddr (checkRemoteAddress (H := demo full_house) req_proxied) = "203.0.113.9"
  ∧ RemoteAddr (ServeHTTP (H := demo full_house) server0 rw0 req_proxied world0).1.1
    = "10.0.0.1:4711"
  ∧ trace (ServeHTTP (H := demo full_house) server0 rw0 req_proxied world0).2
    = [EvLog LevelDebug "" "connection refused, configured limit reached" [];
       EvIsNewConnectionAllowed].
Proof. split; [|split]; vm_compute; reflexivity. Qed.

Lemma ServeHTTP_login_reports_witness :
  reports (trace (ServeHTTP_login (H := demo plain) server0 rw0 req_wrong "10.0.0.1"
                    world0).2)
  = once_more (reports (trace world0)).
Proof.
  apply (proj1 (ServeHTTP_login_reports (H := demo plain) server0 rw0 req_wrong "10.0.0.1"
                  world0)).
  exists ("alice", "wrong"). vm_compute. reflexivity.
Defined.

(** C7, the claim as stated fails: a request without Basic-auth framing
    passes the connection-level checks, is answered 401, and the outcome
    reporter has not run. *)
Lemma ServeHTTP_anonymous_not_reported :
  BasicAuth (Collaborators := demo plain) req_anonymous = None
  ∧ rw_status (ServeHTTP (H := demo plain) server0 rw0 req_anonymous world0).1.2
    = Some 401%Z
  ∧ reports (trace (ServeHTTP (H := demo plain) server0 rw0 req_anonymous world0).2)
    = (0, 0, 0)%nat
  ∧ reports (trace (ServeHTTP (H := demo plain) server0 rw0 req_anonymous world0).2)
    ≠ once_more (reports (trace world0)).
Proof.
  split; [vm_compute; reflexivity|]. split; [vm_compute; reflexivity|].
  split; [vm_compute; reflexivity|]. vm_compute. discriminate.
Qed.

(** * Further properties *)

(** ** TLS trust verifier: when it passes and what it leaves behind *)

Lemma verifyChains_result (mgr : CertManager) clientCrt name chains (w : World) :
  (verifyChains mgr clientCrt name chains w).1 =
    if existsb (fun chain => IsRevoked mgr clientCrt (last chain)) chains
    then Some ErrCrtRevoked else None.
Proof.
  induction chains as [|c rest IH]; [reflexivity|].
  simpl. destruct (IsRevoked mgr clientCrt (last c)); [reflexivity|exact IH].
Qed.

Lemma verifyChains_world (mgr : CertManager) clientCrt name chains (w : World) :
  (verifyChains mgr clientCrt name chains w).2 =
    match (verifyChains mgr clientCrt name chains w).1 with
    | None => w
    | Some _ =>
        after (EvLog LevelDebug ""
                 "tls handshake error, client certificate %#v has been revoked"
                 [LStr name]) w
    end.
Proof.
  induction chains as [|c rest IH]; [reflexivity|].
  simpl. destruct (IsRevoked mgr clientCrt (last c)); [reflexivity|exact IH].
Qed.

(** X1. With a certificate manager and at least one verified chain, the
    verifier passes exactly when the leaf certificate is revoked under the
    trust anchor of none of the chains; when it does not pass, the error is
    the certificate-revoked one. *)
Theorem verifyTLSConnection_passes_iff (mgr : CertManager) (state : ConnectionState)
    (w : World) :
  VerifiedChains state ≠ [] →
  ((verifyTLSConnection (Some mgr) state w).1 = None ↔
   ∀ chain, chain ∈ VerifiedChains state →
     IsRevoked mgr (head (PeerCertificates state)) (last chain) = false)
  ∧ ((verifyTLSConnection (Some mgr) state w).1 = None
     ∨ (verifyTLSConnection (Some mgr) state w).1 = Some ErrCrtRevoked).
Proof.
  intros Hne. unfold verifyTLSConnection.
  rewrite bool_decide_eq_false_2 by (destruct (VerifiedChains state); [done|discriminate]).
  rewrite verifyChains_result.
  destruct (existsb _ (VerifiedChains state)) eqn:Hex.
  - split; [|by right]. split; [discriminate|].
    intros Hall. apply existsb_exists in Hex as (chain & Hin & Hrev).
    apply list_elem_of_In in Hin. rewrite (Hall chain Hin) in Hrev. discriminate.
  - split; [|by left]. split; [|reflexivity].
    intros _ chain Hin. apply list_elem_of_In in Hin.
    destruct (IsRevoked mgr (head (PeerCertificates state)) (last chain)) eqn:Hrev; [|done].
    assert (existsb (fun chain => IsRevoked mgr (head (PeerCertificates state)) (last chain))
              (VerifiedChains state) = true) as Htrue
      by (apply existsb_exists; eauto).
    congruence.
Qed.

Lemma verifyTLSConnection_passes_iff_witness :
  (verifyTLSConnection (Some demo_mgr) clean_chains world0).1 = None.
Proof.
  apply (proj1 (verifyTLSConnection_passes_iff demo_mgr clean_chains world0
                  ltac:(discriminate))).
  intros chain Hin.
  apply elem_of_cons in Hin as [->|Hin]; [reflexivity|].
  apply elem_of_cons in Hin as [->|Hin]; [reflexivity|].
  by apply elem_of_nil in Hin.
Defined.

(** X2. The verifier touches neither the cache, nor the clock, nor the
    lock systems.  It logs nothing when it passes, one warning when no
    chain was verified, and one debug line when the certificate is
    revoked, naming the subject of the first peer certificate (the empty
    name when the peer presented none). *)
Theorem verifyTLSConnection_effects (certMgr : option CertManager) (state : ConnectionState)
    (w : World) :
  let out := verifyTLSConnection certMgr state w in
  cache out.2 = cache w ∧ clock out.2 = clock w ∧ next_ls out.2 = next_ls w
  ∧ trace out.2 =
      match out.1 with
      | None => trace w
      | Some ErrChainUnverifiable =>
          EvLog LevelWarn ""
            "TLS connection cannot be verified: unable to get verification chain" []
          :: trace w
      | Some _ =>
          EvLog LevelDebug "" "tls handshake error, client certificate %#v has been revoked"
            [LStr (from_option Subject "" (head (PeerCertificates state)))]
          :: trace w
      end.
Proof.
  unfold verifyTLSConnection. destruct certMgr as [mgr|]; [|done].
  destruct (bool_decide (length (VerifiedChains state) = 0%nat)); [done|].
  cbv zeta. rewrite verifyChains_world, verifyChains_result.
  destruct (existsb _ (VerifiedChains state)); done.
Qed.

(** ** Authenticator: cache round trip, failures, the cached entry *)

Section AuthExtras.
Context `{Collaborators}.

(** Full verification that the provider accepts, step by step. *)
Lemma fullVerification_accepted s username password ip (w : World) user :
  CheckUserAndPass (after (EvCheckUserAndPass username password ip ProtocolWebDAV) w)
    username password ip ProtocolWebDAV = (user, None) →
  let out := fullVerification s username password ip w in
  out.1 = (user, false, Some (next_ls w), None)
  ∧ next_ls out.2 = S (next_ls w) ∧ clock out.2 = clock w
  ∧ cache out.2 =
      (if password =? "" then cache w
       else CacheWebDAVUser (new_entry s user password (next_ls w) (clock w)) (MaxSize s)
              (cache w))
  ∧ ∃ opened closed : nat,
      (closed ≤ opened ≤ 1)%nat
      ∧ temp_opens (trace out.2) = (temp_opens (trace w) + opened)%nat
      ∧ root_checks (trace out.2) = (root_checks (trace w) + closed)%nat
      ∧ fs_closes (trace out.2) = (fs_closes (trace w) + closed)%nat
      ∧ (password = "" ∨ FsProvider user = SFTPFilesystemProvider → opened = 0%nat).
Proof.
  intros Hok. unfold fullVerification, after in *. mrun. simpl in Hok. rewrite Hok.
  unfold NewMemLS, new_entry.
  destruct (String.eqb_spec password "") as [->|Hpw]; simpl.
  { repeat split; try done. exists 0%nat, 0%nat. repeat split; try done; lia. }
  destruct (0 <? ExpirationTime s)%Z; simpl;
    (destruct (Z.eqb_spec (FsProvider user) SFTPFilesystemProvider) as [Hsftp|Hsftp]; simpl;
     [repeat split; try done; exists 0%nat, 0%nat; repeat split; try done; lia
     |destruct (GetFilesystem _ user "temp"); simpl;
      repeat split; try done;
      [exists 1%nat, 1%nat|exists 1%nat, 0%nat];
      repeat split; try done; try lia; intros [?|?]; done]).
Qed.

Lemma fullVerification_rejected s username password ip (w : World) user e :
  CheckUserAndPass (after (EvCheckUserAndPass username password ip ProtocolWebDAV) w)
    username password ip ProtocolWebDAV = (user, Some e) →
  let out := fullVerification s username password ip w in
  out.1 = (set_Username username user, false, None, Some e)
  ∧ next_ls out.2 = next_ls w ∧ clock out.2 = clock w ∧ cache out.2 = cache w.
Proof.
  intros Hko. unfold fullVerification, after in *. mrun. simpl in Hko. rewrite Hko.
  done.
Qed.

Lemma authenticate_lookup_hit s r ip (w : World) username password cu :
  BasicAuth r = Some (username, password) →
  cache w !! username = Some cu →
  (IsExpired cu w).1 = false →
  password ≠ "" → cu_Password cu = password →
  authenticate s r ip w = ((cu_User cu, true, Some (cu_LockSystem cu), None), w).
Proof.
  intros Hauth Hget Hexp Hpw Heq.
  unfold authenticate. rewrite Hauth. unfold GetCachedWebDAVUser. mrun. rewrite Hget.
  unfold IsExpired in *. mrun. simpl in Hexp. rewrite Hexp.
  apply String.eqb_neq in Hpw. rewrite Hpw. apply String.eqb_eq in Heq. rewrite Heq.
  reflexivity.
Qed.

(** The world in which [authenticate] starts full verification. *)
Lemma authenticate_cases s r ip (w : World) username password :
  BasicAuth r = Some (username, password) →
  (∃ cu, cache w !! username = Some cu ∧ (IsExpired cu w).1 = false
         ∧ authenticate s r ip w =
             if negb (password =? "") && (cu_Password cu =? password)
             then ((cu_User cu, true, Some (cu_LockSystem cu), None), w)
             else ((zeroUser, false, None, Some ErrInvalidCredentials),
                   (updateLoginMetrics (cu_User cu) ip (Some ErrInvalidCredentials) w).2))
  ∨ (authenticate s r ip w =
       fullVerification s username password ip
         {| cache := cache_after_lookup username w; clock := clock w;
            next_ls := next_ls w; trace := trace w |}
     ∧ ∀ k c, cache_after_lookup username w !! k = Some c → cache w !! k = Some c).
Proof.
  intros Hauth. unfold cache_after_lookup.
  destruct (cache w !! username) as [cu|] eqn:Hget.
  - destruct (IsExpired cu w).1 eqn:Hexp.
    + right. split; [by apply authenticate_lookup_expired with cu|].
      intros k c Hk. by apply lookup_delete_Some in Hk as [_ Hk].
    + left. exists cu. split; [done|]. split; [done|].
      unfold authenticate. rewrite Hauth. unfold GetCachedWebDAVUser. mrun. rewrite Hget.
      unfold IsExpired in *. mrun. simpl in Hexp. rewrite Hexp.
      by destruct (negb (password =? "") && (cu_Password cu =? password)).
  - right. split; [|done].
    rewrite (authenticate_lookup_miss s r ip w username password Hauth Hget).
    by destruct w.
Qed.

Lemma provider_answer (w : World) username password ip :
  ∃ user err,
    CheckUserAndPass (after (EvCheckUserAndPass username password ip ProtocolWebDAV) w)
      username password ip ProtocolWebDAV = (user, err).
Proof. destruct (CheckUserAndPass _ username password ip ProtocolWebDAV); eauto. Qed.

(** X3. An authentication that fails allocates no lock system and inserts
    nothing into the cache: it returns no lock system and no cache-hit
    flag, every entry of the resulting cache was there before, and the
    clock is untouched.  The identity returned with the failure is the
    zero identity, or one stamped with the submitted username. *)
Theorem authenticate_failure_frame s r ip (w : World) user cached ls e w' :
  authenticate s r ip w = ((user, cached, ls, Some e), w') →
  ls = None ∧ cached = false
  ∧ next_ls w' = next_ls w ∧ clock w' = clock w
  ∧ (∀ k c, cache w' !! k = Some c → cache w !! k = Some c)
  ∧ (user = zeroUser
     ∨ ∃ username password, BasicAuth r = Some (username, password)
                            ∧ Username user = username).
Proof.
  intros Hrun. destruct (BasicAuth r) as [[username password]|] eqn:Hauth.
  2:{ unfold authenticate in Hrun. rewrite Hauth in Hrun. injection Hrun as <- <- <- <- <-.
      repeat split; try done. by left. }
  destruct (authenticate_cases s r ip w username password Hauth)
    as [(cu & Hget & Hexp & Hhit)|[Hfull Hsub]].
  - rewrite Hhit in Hrun.
    destruct (negb (password =? "") && (cu_Password cu =? password)); [discriminate|].
    injection Hrun as <- <- <- <- <-. repeat split; try done. by left.
  - rewrite Hfull in Hrun.
    destruct (provider_answer {| cache := cache_after_lookup username w; clock := clock w;
                                 next_ls := next_ls w; trace := trace w |}
                username password ip) as (u & [e'|] & Hans).
    + destruct (fullVerification_rejected s username password ip _ u e' Hans)
        as (Hres & Hnext & Hclock & Hcache).
      rewrite Hrun in Hres, Hnext, Hclock, Hcache. simpl in *.
      injection Hres as -> -> -> ->.
      repeat split; try done.
      * intros k c. rewrite Hcache. apply Hsub.
      * right. exists username, password. done.
    + destruct (fullVerification_accepted s username password ip _ u Hans) as (Hres & _).
      rewrite Hrun in Hres. simpl in Hres. discriminate.
Qed.

(** X4. Cache round trip.  Provided the cache stores what it is handed
    under the username of the entry, the provider returns the identity
    under the submitted username, and the configured lifetime does not
    overflow, a successful login with a non-empty password followed at
    once by a login with the same credentials gives the same identity and
    the same lock system, flagged as a cache hit, and the second login
    leaves the world as it found it: no provider call, no allocation. *)
Theorem authenticate_twice_same_lock s r ip ip2 (w : World) username password user cached ls w1 :
  BasicAuth r = Some (username, password) →
  password ≠ "" →
  (ExpirationTime s ≤ max_minutes)%Z →
  (∀ c n m, CacheWebDAVUser c n m !! Username (cu_User c) = Some c) →
  Username user = username →
  authenticate s r ip w = ((user, cached, Some ls, None), w1) →
  authenticate s r ip2 w1 = ((user, true, Some ls, None), w1).
Proof.
  intros Hauth Hpw Hmax Hput Hname Hrun.
  destruct (authenticate_cases s r ip w username password Hauth)
    as [(cu & Hget & Hexp & Hhit)|[Hfull _]].
  - rewrite Hhit in Hrun.
    destruct (negb (password =? "") && (cu_Password cu =? password)) eqn:Hmatch;
      [|discriminate].
    injection Hrun as <- <- <- <-.
    apply andb_true_iff in Hmatch as [_ Heq]. apply String.eqb_eq in Heq.
    by apply authenticate_lookup_hit with username password.
  - rewrite Hfull in Hrun.
    destruct (provider_answer {| cache := cache_after_lookup username w; clock := clock w;
                                 next_ls := next_ls w; trace := trace w |}
                username password ip) as (u & [e'|] & Hans).
    { destruct (fullVerification_rejected s username password ip _ u e' Hans) as (Hres & _).
      rewrite Hrun in Hres. discriminate. }
    destruct (fullVerification_accepted s username password ip _ u Hans)
      as (Hres & _ & Hclock & Hcache & _).
    rewrite Hrun in Hres, Hclock, Hcache. simpl in Hres, Hclock, Hcache.
    injection Hres as <- -> ->.
    apply String.eqb_neq in Hpw as Hpw'. rewrite Hpw' in Hcache.
    set (entry := new_entry s user password (next_ls w) (clock w)) in *.
    assert (Hget : cache w1 !! username = Some entry).
    { rewrite Hcache, <- Hname. apply (Hput entry). }
    assert (Hlive : (IsExpired entry w1).1 = false).
    { unfold IsExpired. mrun. simpl. rewrite Hclock.
      destruct (Z.ltb_spec 0 (ExpirationTime s)) as [Hpos|_]; [|reflexivity].
      apply negb_false_iff, Z.ltb_lt.
      unfold wrap_int64, time_Minute, max_minutes in *.
      change (2 ^ 63)%Z with 9223372036854775808%Z.
      change (2 ^ 64)%Z with 18446744073709551616%Z.
      Z.div_mod_to_equations. lia. }
    exact (authenticate_lookup_hit s r ip2 w1 username password entry Hauth Hget Hlive
             Hpw eq_refl).
Qed.


(** X6. The entry handed to the cache after a successful full
    verification with a non-empty password holds the provider's identity,
    the supplied password and the lock system that is returned.  It never
    expires for a lifetime of zero or less; for a lifetime of up to
    [max_minutes] minutes it expires that many minutes after the current
    time, strictly in the future; for a lifetime between [max_minutes] and
    twice that, the duration wraps around and the expiration lies in the
    past. *)
Theorem fullVerification_caches_entry s username password ip (w : World) user :
  CheckUserAndPass (after (EvCheckUserAndPass username password ip ProtocolWebDAV) w)
    username password ip ProtocolWebDAV = (user, None) →
  password ≠ "" →
  let out := fullVerification s username password ip w in
  let entry := new_entry s user password (next_ls w) (clock w) in
  cache out.2 = CacheWebDAVUser entry (MaxSize s) (cache w)
  ∧ out.1.1.2 = Some (cu_LockSystem entry)
  ∧ cu_User entry = user ∧ cu_Password entry = password
  ∧ ((ExpirationTime s ≤ 0)%Z → cu_Expiration entry = None)
  ∧ ((0 < ExpirationTime s ≤ max_minutes)%Z →
     cu_Expiration entry = Some (clock w + ExpirationTime s * time_Minute)%Z
     ∧ (clock w < clock w + ExpirationTime s * time_Minute)%Z)
  ∧ ((max_minutes < ExpirationTime s ≤ 2 * max_minutes)%Z →
     ∃ t, cu_Expiration entry = Some t ∧ (t < clock w)%Z).
Proof.
  intros Hok Hpw out entry.
  destruct (fullVerification_accepted s username password ip w user Hok)
    as (Hres & _ & _ & Hcache & _).
  fold out in Hres, Hcache. apply String.eqb_neq in Hpw. rewrite Hpw in Hcache.
  split; [exact Hcache|]. split; [by rewrite Hres|].
  split; [reflexivity|]. split; [reflexivity|].
  subst entry. unfold new_entry, wrap_int64, time_Minute, max_minutes. simpl.
  change (2 ^ 63)%Z with 9223372036854775808%Z.
  change (2 ^ 64)%Z with 18446744073709551616%Z.
  split; [|split].
  - intros Hle. destruct (Z.ltb_spec 0 (ExpirationTime s)); [lia|reflexivity].
  - intros [Hpos Hle]. destruct (Z.ltb_spec 0 (ExpirationTime s)); [|lia].
    split; [f_equal; Z.div_mod_to_equations; lia|lia].
  - intros [Hpos Hle]. destruct (Z.ltb_spec 0 (ExpirationTime s)); [|lia].
    eexists. split; [reflexivity|]. Z.div_mod_to_equations. lia.
Qed.

End AuthExtras.

Lemma authenticate_failure_frame_witness :
  next_ls world_rejected = next_ls world0
  ∧ ∀ k c, cache world_rejected !! k = Some c → cache world0 !! k = Some c.
Proof.
  assert (Hrun : authenticate (H := demo plain) server0 req_wrong "10.0.0.1" world0
                 = ((set_Username "alice" zeroUser, false, None, Some ErrInvalidCredentials),
                    world_rejected)) by (vm_compute; reflexivity).
  destruct (authenticate_failure_frame (H := demo plain) server0 req_wrong "10.0.0.1" world0
              _ _ _ _ _ Hrun) as (_ & _ & Hnext & _ & Hsub & _).
  split; [exact Hnext|exact Hsub].
Defined.

Lemma authenticate_twice_same_lock_witness :
  authenticate (H := demo plain) server0 req_secret "192.0.2.1" world_cached
    = ((alice, true, Some 0%nat, None), world_cached).
Proof.
  apply (authenticate_twice_same_lock (H := demo plain) server0 req_secret "10.0.0.1"
           "192.0.2.1" world0 "alice" "secret" alice false 0%nat world_cached).
  - vm_compute. reflexivity.
  - discriminate.
  - unfold max_minutes. simpl. lia.
  - intros c n m. apply lookup_insert_eq.
  - reflexivity.
  - vm_compute. reflexivity.
Defined.


Lemma fullVerification_caches_entry_witness :
  cu_Expiration (new_entry server_ttl alice "secret" (next_ls world0) (clock world0))
    = Some (clock world0 + ExpirationTime server_ttl * time_Minute)%Z
  ∧ (clock world0 < clock world0 + ExpirationTime server_ttl * time_Minute)%Z.
Proof.
  assert (Hok : CheckUserAndPass (Collaborators := demo plain)
                  (after (EvCheckUserAndPass "alice" "secret" "10.0.0.1"
                            (ProtocolWebDAV (Collaborators := demo plain))) world0)
                  "alice" "secret" "10.0.0.1" (ProtocolWebDAV (Collaborators := demo plain))
                = (alice, None)) by (vm_compute; reflexivity).
  destruct (fullVerification_caches_entry (H := demo plain) server_ttl "alice" "secret"
              "10.0.0.1" world0 alice Hok ltac:(discriminate))
    as (_ & _ & _ & _ & _ & Hlive & _).
  apply Hlive. unfold max_minutes. simpl. lia.
Defined.

(** ** Identity-level admission: what is logged *)

Section MidExtras.
Context `{Collaborators}.

(** X7. [validateUser] logs exactly one line for every rejection and none
    for an admission: a warning for an invalid home directory, a debug
    line for every other rejection.  The line carries the identifier in
    the generated format (protocol tag, separator, token), except the line
    for too many sessions, which carries the bare token.  The cache, the
    clock and the lock systems are left alone. *)
Theorem validateUser_logs (user : User) (r : Request) (w : World) :
  let out := validateUser user r w in
  let token := xid_New (after EvXidNew w) in
  logged (trace out.2) =
    (match out.1.2 with
     | None => []
     | Some (ErrInvalidHomeDir _) => [(LevelWarn, generated_format token)]
     | Some (ErrTooManySessions _) => [(LevelDebug, token)]
     | Some _ => [(LevelDebug, generated_format token)]
     end ++ logged (trace w))%list
  ∧ cache out.2 = cache w ∧ clock out.2 = clock w ∧ next_ls out.2 = next_ls w.
Proof.
  unfold validateUser, after, generated_format. mrun. simpl.
  destruct (filepath_IsAbs (HomeDir user)); simpl; [|done].
  destruct (IsStringInSlice ProtocolWebDAV (DeniedProtocols user)); simpl; [done|].
  destruct (IsLoginMethodAllowed user LoginMethodPassword); simpl; [|done].
  destruct (0 <? MaxSessions user)%Z; simpl;
    [destruct (MaxSessions user <=? GetActiveSessions _ (Username user))%Z; simpl; [done|]|];
    (destruct (0 <? GetQuotaTracking _)%Z; simpl;
     [destruct (HasOverlappedMappedPaths user); simpl|];
     try (destruct (IsLoginFromAddrAllowed user (RemoteAddr r)); simpl); done).
Qed.

(** ** Proxy address resolution: frame, idempotence, bare commas *)

(** X8. [checkRemoteAddress] changes nothing but the remote address, and
    applying it twice is the same as applying it once. *)
Theorem checkRemoteAddress_idempotent (r : Request) :
  Method (checkRemoteAddress r) = Method r
  ∧ URL_Path (checkRemoteAddress r) = URL_Path r
  ∧ Header (checkRemoteAddress r) = Header r
  ∧ checkRemoteAddress (checkRemoteAddress r) = checkRemoteAddress r.
Proof.
  unfold checkRemoteAddress.
  destruct (negb (ProxyProtocol =? 0)%Z); [done|].
  cbv zeta.
  set (ip := if negb (Header_Get (Header r) xRealIP =? "") then _ else _).
  destruct (0 <? String.length ip)%nat eqn:Hip; simpl; fold ip; rewrite ?Hip; done.
Qed.

Lemma strings_Index_from_no_space i (s : string) :
  no_space s = true → strings_Index_from i s ", " = (-1)%Z.
Proof.
  revert i. induction s as [|c s IH]; intros i Hs; [reflexivity|].
  simpl in Hs. apply andb_true_iff in Hs as [Hc Hs].
  apply negb_true_iff, Ascii.eqb_neq in Hc.
  cbn [strings_Index_from String.prefix].
  destruct (ascii_dec "," c) as [<-|_]; [|by apply IH].
  destruct s as [|c' s']; [reflexivity|].
  simpl in Hs. apply andb_true_iff in Hs as [Hc' Hs'].
  apply negb_true_iff, Ascii.eqb_neq in Hc'.
  cbn [String.prefix]. destruct (ascii_dec " " c') as [<-|_]; [done|].
  apply IH. simpl. rewrite Hs'. apply Ascii.eqb_neq in Hc'. by rewrite Hc'.
Qed.

(** X9. With no proxy protocol configured and no X-Real-IP value, an
    X-Forwarded-For value that holds no space is taken whole, commas
    included: trimmed, it replaces the remote address when it is not
    empty. *)
Theorem checkRemoteAddress_no_space (r : Request) :
  ProxyProtocol = 0%Z →
  Header_Get (Header r) xRealIP = "" →
  Header_Get (Header r) xForwardedFor ≠ "" →
  no_space (Header_Get (Header r) xForwardedFor) = true →
  checkRemoteAddress r =
    if strings_TrimSpace (Header_Get (Header r) xForwardedFor) =? "" then r
    else set_RemoteAddr (strings_TrimSpace (Header_Get (Header r) xForwardedFor)) r.
Proof.
  intros Hproxy Hx Hff Hns. unfold checkRemoteAddress. rewrite Hproxy, Hx. simpl.
  destruct (String.eqb_spec (Header_Get (Header r) xForwardedFor) ""); [done|]. simpl.
  unfold strings_Index. rewrite strings_Index_from_no_space by done. simpl.
  rewrite slice_to_all, nonempty_length.
  by destruct (strings_TrimSpace (Header_Get (Header r) xForwardedFor) =? "").
Qed.

(** ** Request preprocessor: frame, pass-through, the Depth header *)

(** X10. [checkRequestMethod] never changes the path or the remote
    address of the request, nor the cache, the clock or the lock systems.
    It stats the cleaned path exactly once for GET and HEAD and not at all
    for any other method.  A request that it has rewritten passes through
    any later application unchanged and without a stat. *)
Theorem checkRequestMethod_frame ctx (r : Request) conn (w : World) :
  let out := checkRequestMethod ctx r conn w in
  URL_Path out.1.2 = URL_Path r ∧ RemoteAddr out.1.2 = RemoteAddr r
  ∧ cache out.2 = cache w ∧ clock out.2 = clock w ∧ next_ls out.2 = next_ls w
  ∧ trace out.2 = (if (Method r =? MethodGet) || (Method r =? MethodHead)
                   then EvStat (path_Clean (URL_Path r)) :: trace w else trace w)
  ∧ (out.1.2 ≠ r →
     ∀ ctx2 conn2 (w2 : World),
       checkRequestMethod ctx2 out.1.2 conn2 w2 = ((false, out.1.2), w2)).
Proof.
  intros out. subst out.
  pose proof (checkRequestMethod_run ctx r conn w) as Hrun. cbv zeta in Hrun.
  rewrite Hrun. clear Hrun.
  destruct ((Method r =? MethodGet) || (Method r =? MethodHead)); [|done].
  destruct (match Connection_Stat _ conn ctx _ with inl info => IsDir info | inr _ => false end);
    [|done].
  destruct (Method r =? MethodHead); [done|].
  destruct (Header_Get (Header r) "Depth" =? ""); simpl;
    repeat split; try done; intros _ ctx2 conn2 w2; reflexivity.
Qed.

(** X11. The Depth header after the rewrite of a GET on a directory.
    When the request has no Depth values, the header then reads 1.  When
    its first Depth value is empty, 1 is appended after the existing
    values and the header still reads as empty.  No other header is
    touched. *)
Theorem checkRequestMethod_depth ctx (r : Request) conn (w : World) info :
  Method r = MethodGet →
  Connection_Stat (after (EvStat (path_Clean (URL_Path r))) w) conn ctx
    (path_Clean (URL_Path r)) = inl info →
  IsDir info = true →
  let r' := (checkRequestMethod ctx r conn w).1.2 in
  let depth := CanonicalHeaderKey "Depth" in
  (Header r !! depth = None ∨ Header r !! depth = Some [] →
   Header r' !! depth = Some ["1"] ∧ Header_Get (Header r') "Depth" = "1")
  ∧ (∀ vs, Header r !! depth = Some ("" :: vs) →
       Header r' !! depth = Some ("" :: vs ++ ["1"])%list
       ∧ Header_Get (Header r') "Depth" = "")
  ∧ (∀ k, k ≠ depth → Header r' !! k = Header r !! k).
Proof.
  intros Hget Hstat Hdir r' depth. subst r'.
  pose proof (checkRequestMethod_run ctx r conn w) as Hrun. cbv zeta in Hrun.
  rewrite Hrun, Hstat, Hdir, Hget. clear Hrun. simpl.
  unfold Header_Get, Header_Add. fold depth.
  split; [|split].
  - intros [Hnone|Hnil]; [rewrite Hnone|rewrite Hnil]; simpl;
      unfold Header_Get; fold depth; by rewrite lookup_insert_eq.
  - intros vs Hvs. rewrite Hvs. simpl. unfold Header_Get. fold depth.
    by rewrite lookup_insert_eq.
  - intros k Hk. destruct (Header r !! depth) as [[|v vs]|]; simpl;
      [| destruct (String.eqb_spec v ""); simpl |];
      try (by rewrite lookup_insert_ne); done.
Qed.

End MidExtras.

Lemma checkRemoteAddress_no_space_witness :
  RemoteAddr (checkRemoteAddress (H := demo plain) req_forwarded_bare)
    = "203.0.113.9,10.1.1.1".
Proof.
  assert (Hx : Header_Get (H := demo plain) (Header req_forwarded_bare)
                 (xRealIP (H := demo plain)) = "") by (vm_compute; reflexivity).
  assert (Hff : Header_Get (H := demo plain) (Header req_forwarded_bare)
                  (xForwardedFor (H := demo plain)) ≠ "") by (vm_compute; discriminate).
  assert (Hns : no_space (Header_Get (H := demo plain) (Header req_forwarded_bare)
                            (xForwardedFor (H := demo plain))) = true)
    by (vm_compute; reflexivity).
  rewrite (checkRemoteAddress_no_space (H := demo plain) req_forwarded_bare eq_refl Hx Hff Hns).
  vm_compute. reflexivity.
Defined.

Lemma checkRequestMethod_depth_witness :
  Header_Get (H := demo plain)
    (Header (checkRequestMethod (H := demo plain) ctx0 req_get_dir
               (connection_of req_get_dir) world0).1.2) "Depth" = "1".
Proof.
  assert (Hstat : Connection_Stat (Collaborators := demo plain)
                    (after (EvStat (path_Clean (Collaborators := demo plain)
                                      (URL_Path req_get_dir))) world0)
                    (connection_of req_get_dir) ctx0
                    (path_Clean (Collaborators := demo plain) (URL_Path req_get_dir))
                  = inl {| IsDir := true |}) by (vm_compute; reflexivity).
  assert (Hnone : Header req_get_dir !! CanonicalHeaderKey (Collaborators := demo plain) "Depth"
                  = None) by (vm_compute; reflexivity).
  destruct (checkRequestMethod_depth (H := demo plain) ctx0 req_get_dir
              (connection_of req_get_dir) world0 {| IsDir := true |} eq_refl Hstat eq_refl)
    as (Habsent & _).
  exact (proj2 (Habsent (or_introl Hnone))).
Defined.

(** ** ServeHTTP: outcomes, ban list, registry, responses *)

Section ServeExtras.
Context `{Collaborators}.









(** X14. The answers of the login stage to a failure.  Any
    authentication failure is answered 401 with the challenge header and
    the fixed Unauthorized text, whatever the error was, so the cause is
    not disclosed.  A rejection by [validateUser] is answered 403 and a
    failure to open the filesystem 500, each with the text of the error.
    In all three cases the request is left as it was. *)
Theorem ServeHTTP_login_failure_answers s rw (r : Request) ip (w : World) :
  let out := ServeHTTP_login s rw r ip w in
  let auth := authenticate s r ip w in
  let user := auth.1.1.1.1 in
  let val := validateUser user r auth.2 in
  let opened := GetFilesystem (after (EvGetFilesystem user val.1.1) val.2) user val.1.1 in
  (is_Some auth.1.2 →
   out.1 = (r, http_Error err401 StatusUnauthorized
                 (rw_Header_Set "WWW-Authenticate" realm rw))
   ∧ out.2 = auth.2)
  ∧ (auth.1.2 = None → ∀ e, val.1.2 = Some e →
     out.1 = (r, http_Error e StatusForbidden rw))
  ∧ (auth.1.2 = None → val.1.2 = None → ∀ e, opened = inr e →
     out.1 = (r, http_Error e StatusInternalServerError rw))
  ∧ (rw_status rw = None → ∀ e code, rw_status (http_Error e code rw) = Some code).
Proof.
  intros out auth user val opened. subst out auth user val opened.
  unfold ServeHTTP_login, after. mrun.
  destruct (authenticate s r ip w) as [[[[user cached] ls] [e|]] wa]; cbn [fst snd].
  { repeat split; try done. intros Hnone e0 code. simpl. by rewrite Hnone. }
  destruct (validateUser user r wa) as [[connectionID [e|]] wv]; cbn [fst snd].
  { split; [by intros [? ?]|]. split; [by intros _ e0 [= ->]|]. split; [done|].
    intros Hnone e0 code. simpl. by rewrite Hnone. }
  split; [by intros [? ?]|]. split; [done|]. split.
  - intros _ _ e Hfs. simpl in Hfs. rewrite Hfs. reflexivity.
  - intros Hnone e0 code. simpl. by rewrite Hnone.
Qed.

Lemma fullVerification_handler_events s username password ip (w : World) :
  handler_events (trace (fullVerification s username password ip w).2)
    = handler_events (trace w).
Proof.
  unfold fullVerification. mrun.
  destruct (CheckUserAndPass _ username password ip ProtocolWebDAV) as [user [e|]].
  - reflexivity.
  - unfold NewMemLS. destruct (negb (password =? "")); [|reflexivity].
    destruct (0 <? ExpirationTime s)%Z;
      (destruct (negb (FsProvider user =? SFTPFilesystemProvider)%Z);
       [destruct (GetFilesystem _ user "temp")|]); reflexivity.
Qed.

Lemma authenticate_handler_events s (r : Request) ip (w : World) :
  handler_events (trace (authenticate s r ip w).2) = handler_events (trace w).
Proof.
  unfold authenticate. destruct (BasicAuth r) as [[username password]|]; [|reflexivity].
  unfold GetCachedWebDAVUser, RemoveCachedWebDAVUser, IsExpired. mrun.
  destruct (cache w !! username) as [cu|]; [|apply fullVerification_handler_events].
  simpl. destruct (cu_Expiration cu) as [t|]; simpl.
  - destruct (clock w <? t)%Z; simpl.
    + destruct (negb (password =? "") && (cu_Password cu =? password)); reflexivity.
    + apply (fullVerification_handler_events s username password ip
               {| cache := delete username (cache w); clock := clock w;
                  next_ls := next_ls w; trace := trace w |}).
  - destruct (negb (password =? "") && (cu_Password cu =? password)); reflexivity.
Qed.

Lemma validateUser_handler_events (user : User) (r : Request) (w : World) :
  handler_events (trace (validateUser user r w).2) = handler_events (trace w).
Proof.
  unfold validateUser. mrun. simpl.
  destruct (filepath_IsAbs (HomeDir user)); simpl; [|done].
  destruct (IsStringInSlice ProtocolWebDAV (DeniedProtocols user)); simpl; [done|].
  destruct (IsLoginMethodAllowed user LoginMethodPassword); simpl; [|done].
  destruct (0 <? MaxSessions user)%Z; simpl;
    [destruct (MaxSessions user <=? GetActiveSessions _ (Username user))%Z; simpl; [done|]|];
    (destruct (0 <? GetQuotaTracking _)%Z; simpl;
     [destruct (HasOverlappedMappedPaths user); simpl|];
     try (destruct (IsLoginFromAddrAllowed user (RemoteAddr r)); simpl); done).
Qed.

Lemma ServeHTTP_dispatch_handler_events ctx rw (r : Request) conn ls (w : World) :
  let out := ServeHTTP_dispatch ctx rw r conn ls w in
  let check := (checkRequestMethod ctx r conn w).1 in
  handler_events (trace out.2) =
    ((if check.1 then [] else [(set_request check.2 conn, ls, ctx, check.2)])
     ++ handler_events (trace w))%list
  ∧ out.1.1 = check.2.
Proof.
  unfold ServeHTTP_dispatch. mrun.
  pose proof (checkRequestMethod_run ctx r conn w) as Hrun. cbv zeta in Hrun.
  rewrite Hrun. unfold after, emit.
  destruct ((Method r =? MethodGet) || (Method r =? MethodHead)); [|done].
  destruct (Connection_Stat _ conn ctx (path_Clean (URL_Path r))) as [[[]]|]; simpl;
    try done.
  destruct (Method r =? MethodHead); [done|].
  destruct (Header_Get (Header r) "Depth" =? ""); done.
Qed.

(** X16. What the downstream handler is called with.  It is called
    exactly when [authenticate] and [validateUser] succeed, the filesystem
    opens, and the request is not a HEAD on a directory; it is then called
    once, with the lock system and the identity that [authenticate]
    returned, the connection identifier that [validateUser] returned (also
    the request identifier of the context), the WebDAV protocol tag, the
    filesystem that was opened, and the request itself: the incoming
    request, or its PROPFIND rewrite for a GET on a directory.  The
    connection holds that same request, and it is the request that
    [ServeHTTP] leaves. *)
Theorem ServeHTTP_login_handler_inputs s rw (r : Request) ip (w : World) :
  let out := ServeHTTP_login s rw r ip w in
  let auth := authenticate s r ip w in
  let user := auth.1.1.1.1 in
  let val := validateUser user r auth.2 in
  let id := val.1.1 in
  let asked := after (EvGetFilesystem user id) val.2 in
  match first_error auth.1.2 val.1.2 (GetFilesystem asked user id),
        GetFilesystem asked user id with
  | None, inl fs =>
      let reported := (updateLoginMetrics user ip None asked).2 in
      let ctx := {| requestID := id; requestStart := clock reported |} in
      let conn := {| conn_ID := id; conn_protocol := ProtocolWebDAV; conn_User := user;
                     conn_Fs := fs; conn_request := r |} in
      let wd := after (EvUpdateLastLogin user) (after (EvConnectionsAdd conn) reported) in
      let p := path_Clean (URL_Path r) in
      let isdir := match Connection_Stat (after (EvStat p) wd) conn ctx p with
                   | inl info => IsDir info
                   | inr _ => false
                   end in
      if (Method r =? MethodHead) && isdir then
        handler_events (trace out.2) = handler_events (trace w) ∧ out.1.1 = r
      else
        let r' := if (Method r =? MethodGet) && isdir then as_PROPFIND r else r in
        handler_events (trace out.2) =
          (set_request r' conn, auth.1.1.2, ctx, r') :: handler_events (trace w)
        ∧ out.1.1 = r'
  | _, _ => handler_events (trace out.2) = handler_events (trace w) ∧ out.1.1 = r
  end.
Proof.
  intros out auth user val id asked. subst out auth user val id asked.
  pose proof (authenticate_handler_events s r ip w) as Ha.
  unfold ServeHTTP_login, after. mrun.
  destruct (authenticate s r ip w) as [[[[user cached] ls] [e|]] wa];
    cbn [fst snd first_error] in *.
  { done. }
  pose proof (validateUser_handler_events user r wa) as Hv. rewrite Ha in Hv.
  destruct (validateUser user r wa) as [[connectionID [e|]] wv];
    cbn [fst snd first_error] in *.
  { by rewrite updateLoginMetrics_run. }
  unfold emit. cbn [fst snd].
  destruct (GetFilesystem _ user connectionID) as [fs|e]; cbn [fst snd first_error].
  2:{ by rewrite updateLoginMetrics_run. }
  rewrite !updateLoginMetrics_run_ok. cbn [fst snd].
  match goal with
  | |- context [ServeHTTP_dispatch ?ctx ?rw ?r ?conn ?ls ?w0] =>
      destruct (ServeHTTP_dispatch_handler_events ctx rw r conn ls w0) as [Hd Hreq];
      pose proof (checkRequestMethod_run ctx r conn w0) as Hrun;
      set (d := ServeHTTP_dispatch ctx rw r conn ls w0) in *;
      set (chk := checkRequestMethod ctx r conn w0) in *
  end.
  cbv zeta in Hrun. unfold after, emit in Hrun. simpl in Hrun, Hd.
  rewrite Hv in Hd. rewrite Hd, Hreq, Hrun. clear Hd Hreq Hrun.
  unfold as_PROPFIND.
  destruct (String.eqb_spec (Method r) MethodHead) as [Hh|Hh];
    destruct (String.eqb_spec (Method r) MethodGet) as [Hg|Hg];
    try (rewrite Hh in Hg; discriminate Hg); simpl;
    try (destruct (match Connection_Stat _ _ _ _ with
                   | inl info => IsDir info
                   | inr _ => false
                   end); simpl);
    try (destruct (Header_Get (Header r) "Depth" =? ""); simpl); done.
Qed.

End ServeExtras.


Lemma ServeHTTP_login_handler_inputs_witness :
  let out := ServeHTTP_login (H := demo plain) server0 rw0 req_secret "10.0.0.1" world0 in
  Method out.1.1 = "PROPFIND"
  ∧ Header out.1.1 !! "Depth" = Some ["1"]
  ∧ map (λ e, (conn_ID e.1.1.1, Username (conn_User e.1.1.1), conn_Fs e.1.1.1,
               Method (conn_request e.1.1.1), e.1.1.2, Method e.2))
        (handler_events (trace out.2))
    = [("c5h2f1o6n88dkq2a0v0g", "alice", 7, "PROPFIND", Some 0%nat, "PROPFIND")].
Proof.
  pose proof (ServeHTTP_login_handler_inputs (H := demo plain) server0 rw0 req_secret
                "10.0.0.1" world0) as Hin.
  cbv zeta in Hin |- *.
  remember (ServeHTTP_login (H := demo plain) server0 rw0 req_secret "10.0.0.1" world0)
    as out eqn:Hout.
  assert (Hok : first_error
                  (authenticate (H := demo plain) server0 req_secret "10.0.0.1" world0).1.2
                  (validateUser (H := demo plain)
                     (authenticate (H := demo plain) server0 req_secret "10.0.0.1"
                        world0).1.1.1.1 req_secret
                     (authenticate (H := demo plain) server0 req_secret "10.0.0.1"
                        world0).2).1.2
                  (GetFilesystem (Collaborators := demo plain)
                     (after (EvGetFilesystem
                               (authenticate (H := demo plain) server0 req_secret "10.0.0.1"
                                  world0).1.1.1.1
                               (validateUser (H := demo plain)
                                  (authenticate (H := demo plain) server0 req_secret
                                     "10.0.0.1" world0).1.1.1.1 req_secret
                                  (authenticate (H := demo plain) server0 req_secret
                                     "10.0.0.1" world0).2).1.1)
                        (validateUser (H := demo plain)
                           (authenticate (H := demo plain) server0 req_secret "10.0.0.1"
                              world0).1.1.1.1 req_secret
                           (authenticate (H := demo plain) server0 req_secret "10.0.0.1"
                              world0).2).2)
                     (authenticate (H := demo plain) server0 req_secret "10.0.0.1"
                        world0).1.1.1.1
                     (validateUser (H := demo plain)
                        (authenticate (H := demo plain) server0 req_secret "10.0.0.1"
                           world0).1.1.1.1 req_secret
                        (authenticate (H := demo plain) server0 req_secret "10.0.0.1"
                           world0).2).1.1) = None)
    by (vm_compute; reflexivity).
  rewrite Hok in Hin.
  vm_compute in Hin. destruct Hin as [Hev Hreq].
  vm_compute. rewrite Hev, Hreq. vm_compute. repeat split; reflexivity.
Defined.

(** ** listenAndServe: what is served and what is recorded *)

(** X15. The binding recorded in the service status tells what is really
    served.  TLS is served exactly when a certificate manager is
    configured and the binding asks for HTTPS; a binding that asks for
    HTTPS without a certificate manager is served in clear text and
    recorded with HTTPS switched off.  Exactly one binding is appended to
    the recorded ones.  When TLS is served the minimum version is TLS 1.2,
    and client certificates are required, checked against the manager's
    root CAs and passed through [verifyTLSConnection] exactly when the
    client authentication type is 1.  The handler is the server behind the
    compressor, behind CORS with options passed through when CORS is
    enabled. *)
Theorem listenAndServe_records_what_it_serves (certMgr : option CertManager)
    (cors : CorsConfig) (binding : Binding) (recorded : list Binding) :
  let '(listener, binding', recorded', info) :=
    listenAndServe certMgr cors binding recorded in
  let srv := server_of listener in
  recorded' = (recorded ++ [binding'])%list
  ∧ (serves_TLS listener = true ↔ is_Some certMgr ∧ EnableHTTPS binding = true)
  ∧ EnableHTTPS binding' = serves_TLS listener
  ∧ bind_Address binding' = bind_Address binding
  ∧ ClientAuthType binding' = ClientAuthType binding
  ∧ Addr srv = bind_Address binding
  ∧ info = (if serves_TLS listener then "starting HTTPS serving, binding: %v"
            else "starting HTTP serving, binding: %v")
  ∧ (is_Some (srv_TLSConfig srv) ↔ serves_TLS listener = true)
  ∧ (∀ cfg, srv_TLSConfig srv = Some cfg →
       MinVersion cfg = VersionTLS12
       ∧ (ClientAuth cfg = RequireAndVerifyClientCert ↔ ClientAuthType binding = 1%Z)
       ∧ (VerifyConnection cfg = true ↔ ClientAuthType binding = 1%Z)
       ∧ ClientCAs cfg = VerifyConnection cfg)
  ∧ (Enabled cors = false → srv_Handler srv = CompressorHandler ServerHandler)
  ∧ (Enabled cors = true →
     ∃ options, srv_Handler srv = CorsHandler options (CompressorHandler ServerHandler)
                ∧ OptionsPassthrough options = true
                ∧ opt_AllowedOrigins options = AllowedOrigins cors
                ∧ opt_AllowCredentials options = AllowCredentials cors).
Proof.
  unfold listenAndServe.
  destruct certMgr as [mgr|], binding as [addr [] cat]; simpl;
    try (destruct (Z.eqb_spec cat 1)); simpl;
    repeat split; try done;
    try (by intros [[? ?] ?]); try (by intros [? ?]); try (by intros [? [=]]);
    try (by eexists);
    try (intros cfg [= <-]; simpl; repeat split; done);
    try (destruct (Enabled cors); done);
    try (intros Hc; rewrite Hc; eexists; repeat split; reflexivity);
    match goal with
    | Hcfg : Some _ = Some ?cfg |- _ => injection Hcfg as <-; simpl; done
    end.
Qed.

Lemma listenAndServe_records_what_it_serves_witness :
  serves_TLS (listenAndServe None cors_off binding_mtls []).1.1.1 = false
  ∧ (listenAndServe None cors_off binding_mtls []).1.2
    = [set_EnableHTTPS false binding_mtls].
Proof.
  pose proof (listenAndServe_records_what_it_serves None cors_off binding_mtls []) as Hspec.
  destruct (listenAndServe None cors_off binding_mtls [])
    as [[[listener binding'] recorded'] info] eqn:Hrun.
  destruct Hspec as (Hrec & Htls & Hflag & Haddr & Hcat & _).
  split.
  - simpl. destruct (serves_TLS listener) eqn:Hs; [|reflexivity].
    destruct (proj1 Htls eq_refl) as [[? [=]] _].
  - simpl. vm_compute in Hrun. by injection Hrun as <- <- <- <-.
Defined.
